(** * Section insertion and renumbering in [use-case-specifications.md]

    A shallow embedding of the two maintenance scripts of the repository,

    - [docs/update_specs.py]: inserts the use case "Onboarding" before
      section 8 and renumbers the headings that follow with a counter;
    - [update_specs_employer.py]: inserts the use case "Employer
      Onboarding" before the first [## 18.] and adds one to every heading
      number of the text that follows, with [re.sub].

    Text is a list of characters and a character is a code point, as in
    a Python [str].  Two things the scripts use depend on the character
    tables of the interpreter: [\d] and [int] take the decimal digits of
    every script, and [strip] takes every Unicode white space.  On ASCII
    these are fixed, and they are written out; beyond ASCII they are those
    of the Unicode version of the interpreter, which is not part of the
    repository: the class [Unicode] takes them as a parameter, and
    [unicode_14] gives those of Unicode 14.0.  Integers are unbounded
    ([N]), as Python's are; the interpreter's optional limit on the length
    of a converted numeral is not modelled. *)

From Stdlib Require Import List Ascii String NArith Arith Bool Lia.
From Stdlib Require Import Decimal DecimalN.
Import ListNotations.

Local Open Scope list_scope.
Local Open Scope N_scope.

(** ** Text *)

(** A character: its code point. *)
Definition char := N.

Definition text := list char.

(** The character of an ASCII literal. *)
Definition chr (a : ascii) : char := N_of_ascii a.

(** The text of an ASCII literal. *)
Definition T (s : string) : text := map chr (list_ascii_of_string s).

Definition newline : char := 10.
Definition dq : string := String (ascii_of_nat 34) EmptyString.

Definition is_newline (c : char) : bool := N.eqb c newline.

(** [s.split('\n')], as its first piece and the others: the result of
    Python's [split] is never empty. *)
Fixpoint split_nl (s : text) : text * list text :=
  match s with
  | [] => ([], [])
  | c :: s' =>
      let (l, ls) := split_nl s' in
      if is_newline c then ([], l :: ls) else (c :: l, ls)
  end.

Definition split (s : text) : list text :=
  let (l, ls) := split_nl s in l :: ls.

(** ['\n'.join(items)] *)
Fixpoint join (items : list text) : text :=
  match items with
  | [] => []
  | [x] => x
  | x :: rest => x ++ newline :: join rest
  end.

(** Lines, each one ended by a newline. *)
Definition unlines (ls : list text) : text :=
  flat_map (fun l => l ++ [newline]) ls.

(** A triple-quoted literal, given by its lines: each ends with a
    newline. *)
Definition literal (ls : list string) : text := unlines (map T ls).

(** A text without a newline: one line. *)
Definition no_nl (l : text) : Prop := ~ In newline l.

(** [s.startswith(p)], returning what follows [p]: the literal part of a
    regular expression matched at the current position. *)
Fixpoint strip_prefix (p s : text) : option text :=
  match p with
  | [] => Some s
  | a :: p' =>
      match s with
      | [] => None
      | c :: s' => if N.eqb a c then strip_prefix p' s' else None
      end
  end.

(** The longest prefix whose characters satisfy [f], and the rest: a
    greedy [f*]. *)
Fixpoint span (f : char -> bool) (s : text) : text * text :=
  match s with
  | [] => ([], [])
  | c :: s' =>
      if f c then let (a, b) := span f s' in (c :: a, b) else ([], s)
  end.

(** ** The character tables of the interpreter

    What the interpreter knows of the characters beyond ASCII:
    [to_decimal c] is the value, 0 to 9, of [c] when it is a decimal digit
    (category Nd), and [is_whitespace c] tells whether [c] is white space.
    They belong to the Unicode version of the interpreter and are taken as
    they come. *)

Class Unicode := {
  to_decimal : char -> option N;
  is_whitespace : char -> bool
}.

(** The tables of Unicode 14.0: the code points of the digits zero, each
    followed by its digits one to nine, and the white space. *)
Definition decimal_zeros_14 : list N := [
  1632; 1776; 1984; 2406; 2534; 2662; 2790; 2918; 3046; 3174; 3302;
  3430; 3558; 3664; 3792; 3872; 4160; 4240; 6112; 6160; 6470; 6608;
  6784; 6800; 6992; 7088; 7232; 7248; 42528; 43216; 43264; 43472;
  43504; 43600; 44016; 65296; 66720; 68912; 69734; 69872; 69942; 70096;
  70384; 70736; 70864; 71248; 71360; 71472; 71904; 72016; 72784; 73040;
  73120; 92768; 92864; 93008; 120782; 120792; 120802; 120812; 120822;
  123200; 123632; 125264; 130032
].

Definition whitespace_14 : list N := [
  133; 160; 5760; 8192; 8193; 8194; 8195; 8196; 8197; 8198; 8199; 8200;
  8201; 8202; 8232; 8233; 8239; 8287; 12288
].

Definition unicode_14 : Unicode := {|
  to_decimal := fun c =>
    match find (fun z => (z <=? c) && (c <? z + 10)) decimal_zeros_14 with
    | Some z => Some (c - z)
    | None => None
    end;
  is_whitespace := fun c => existsb (N.eqb c) whitespace_14
|}.

(** ** Numerals *)

Section Numerals.
Context {U : Unicode}.

(** The value of a decimal digit: what [\d] matches and [int] reads. *)
Definition decimal (c : char) : option N :=
  if c <? 128 then
    if (48 <=? c) && (c <=? 57) then Some (c - 48) else None
  else to_decimal c.

Definition is_digit (c : char) : bool :=
  match decimal c with
  | Some _ => true
  | None => false
  end.

Definition digit (v : N) (d : uint) : uint :=
  match v with
  | 0 => D0 d | 1 => D1 d | 2 => D2 d | 3 => D3 d | 4 => D4 d
  | 5 => D5 d | 6 => D6 d | 7 => D7 d | 8 => D8 d | _ => D9 d
  end.

(** The digits of a numeral; it ends at a character that is not a digit,
    which a match of [\d+] does not have. *)
Fixpoint uint_of_digits (s : text) : uint :=
  match s with
  | [] => Nil
  | c :: s' =>
      match decimal c with
      | Some v => digit v (uint_of_digits s')
      | None => Nil
      end
  end.

(** [int(s)] on a string of digits (leading zeros allowed). *)
Definition int (s : text) : N := N.of_uint (uint_of_digits s).

End Numerals.

Fixpoint digits_of_uint (d : uint) : text :=
  match d with
  | Nil => []
  | D0 d => chr "0" :: digits_of_uint d
  | D1 d => chr "1" :: digits_of_uint d
  | D2 d => chr "2" :: digits_of_uint d
  | D3 d => chr "3" :: digits_of_uint d
  | D4 d => chr "4" :: digits_of_uint d
  | D5 d => chr "5" :: digits_of_uint d
  | D6 d => chr "6" :: digits_of_uint d
  | D7 d => chr "7" :: digits_of_uint d
  | D8 d => chr "8" :: digits_of_uint d
  | D9 d => chr "9" :: digits_of_uint d
  end.

(** [str(n)], what an f-string writes for [{n}]. *)
Definition str (n : N) : text := digits_of_uint (N.to_uint n).

(** ** Running a script

    Both scripts read one file, may write it back, print a line and may
    stop with [exit].  [world] is what they can change; a script either
    goes on with a value or has left with an exit status. *)

Module Script.

Record world := mkWorld {
  file : text;
  stdout : list string
}.

Inductive result (A : Type) : Type :=
| Done (a : A)
| Exit (status : nat).

Arguments Done {A} a.
Arguments Exit {A} status.

Definition script (A : Type) : Type := world -> world * result A.

Definition ret {A} (a : A) : script A := fun w => (w, Done a).

Definition bind {A B} (m : script A) (k : A -> script B) : script B :=
  fun w =>
    match m w with
    | (w', Done a) => k a w'
    | (w', Exit n) => (w', Exit n)
    end.

(** with open(file_path, 'r') as f: content = f.read() *)
Definition read_file : script text := fun w => (w, Done (file w)).

(** with open(file_path, 'w') as f: f.write(s) *)
Definition write_file (s : text) : script unit :=
  fun w => (mkWorld s (stdout w), Done tt).

Definition print (s : string) : script unit :=
  fun w => (mkWorld (file w) (stdout w ++ [s]), Done tt).

Definition exit {A} (n : nat) : script A := fun w => (w, Exit n).

(** A script that runs to its end leaves with status 0. *)
Definition status {A} (r : world * result A) : nat :=
  match snd r with
  | Done _ => 0%nat
  | Exit n => n
  end.

End Script.

Notation "x <- m ;; k" := (Script.bind m (fun x => k))
  (at level 61, m at next level, right associativity).
Notation "m ;;; k" := (Script.bind m (fun _ => k))
  (at level 61, right associativity).

Definition filter_map {A B} (f : A -> option B) (l : list A) : list B :=
  flat_map (fun a => match f a with Some b => [b] | None => [] end) l.

(** [x in ls], for lines. *)
Definition mem (x : text) (ls : list text) : bool :=
  existsb (fun l => if list_eq_dec N.eq_dec x l then true else false) ls.

(** The numbers 1, 2, ..., n. *)
Definition upto (n : nat) : list N := map N.of_nat (seq 1 n).

(** ** docs/update_specs.py *)

Module UpdateSpecs.

Definition new_use_case : text := literal [
    "## 8. Onboarding";
    "";
    "**1. Use Case Name**";
    "Onboarding";
    "";
    "**2. Description (Purpose)**";
    "This use case guides a new Job Seeker through setting up their profile, including personal details, industry preferences, and resume generation, to ensure they are ready to apply for jobs.";
    "";
    "**3. Primary Actor**";
    "Job Seeker";
    "";
    "**4. Supporting Actors**";
    "System";
    "";
    "**5. Stakeholders and Interests**";
    "";
    "- **Job Seeker:** Wants to quickly set up their profile to start applying.";
    "- **Employer:** Wants candidates to have complete profiles for better evaluation.";
    "- **System:** Needs to collect user data to provide relevant job recommendations.";
    "";
    "**6. Preconditions**";
    "";
    "- Job Seeker has successfully registered and verified their account.";
    "- Job Seeker has not completed the onboarding process.";
    "";
    "**7. Postconditions**";
    "";
    "- **Success:** Job Seeker profile is complete, preferences are set, resume is generated, and onboarding status is finalized.";
    "- **Failure:** Onboarding is incomplete; user stays in the onboarding flow.";
    "";
    "**8. Trigger**";
    "Job Seeker completes account verification or logs in for the first time.";
    "";
    "**9. Main Success Scenario (Standard Flow)**";
    "";
    "1.  System initiates the Onboarding Flow.";
    "2.  Job Seeker completes Personal Profile (Name, Contact, Address).";
    "3.  System validates and saves profile data.";
    "4.  Job Seeker selects Preferred Industries.";
    "5.  System saves preferences.";
    "6.  Job Seeker initiates Resume Generation.";
    "7.  System generates resume (AI/Template) and saves it.";
    "8.  System displays a summary of the provided information.";
    "9.  Job Seeker reviews the information.";
    "10. Job Seeker confirms and clicks " ++ dq ++ "Continue" ++ dq ++ ".";
    "11. System finalizes onboarding status.";
    "12. System redirects Job Seeker to the Dashboard.";
    "";
    "**10. Alternative Flows**";
    "";
    "- **A1: Skip Steps**";
    "  1.  At steps 2, 4, or 6, the Job Seeker chooses to skip the step.";
    "  2.  System proceeds to the next step without saving data for that section.";
    "- **A2: Edit Information**";
    "  1.  At step 9, Job Seeker chooses to edit information.";
    "  2.  Flow returns to the relevant section (Step 2, 4, or 6).";
    "";
    "**11. Exception Flows**";
    "";
    "- **E1: Validation Error:** System shows error message; user corrects input.";
    "- **E2: Generation Failure:** Resume generation fails; system offers retry.";
    "";
    "---";
    ""
  ]%string.

Section WithUnicode.
Context {U : Unicode}.

(** White space, what [strip] takes away. *)
Definition is_space (c : char) : bool :=
  if c <? 128 then ((9 <=? c) && (c <=? 13)) || ((28 <=? c) && (c <=? 32))
  else is_whitespace c.

Fixpoint lstrip (s : text) : text :=
  match s with
  | [] => []
  | c :: s' => if is_space c then lstrip s' else s
  end.

(** [s.strip()] *)
Definition strip (s : text) : text :=
  List.rev (lstrip (List.rev (lstrip s))).

(** [section_pattern.match(line)] for [^## (\d+)\. (.+)]: groups 1 and 2.
    [.] does not match a newline, so group 2 stops before one. *)
Definition section_pattern (line : text) : option (text * text) :=
  match strip_prefix (T "## ") line with
  | None => None
  | Some r =>
      match span is_digit r with
      | ([], _) => None
      | (ds, r1) =>
          match strip_prefix (T ". ") r1 with
          | None => None
          | Some r2 =>
              match fst (span (fun c => negb (is_newline c)) r2) with
              | [] => None
              | title => Some (ds, title)
              end
          end
      end
  end.

(** f"## {current_section_num}. {title}" *)
Definition heading (n : N) (title : text) : text :=
  T "## " ++ str n ++ T ". " ++ title.

(** The variables the loop updates. *)
Record state := mkState {
  new_lines : list text;
  inserted : bool;
  current_section_num : N
}.

Definition append (st : state) (x : text) : state :=
  mkState (new_lines st ++ [x]) (inserted st) (current_section_num st).

(** The body of [for line in lines]. *)
Definition step (st : state) (line : text) : state :=
  match section_pattern line with
  | Some (g1, title) =>
      let num := int g1 in
      if (num =? 8) && negb (inserted st) then
        let st1 := append st (strip new_use_case) in
        let st2 := append st1 [] in
        let st3 := append st2 [] in
        let st4 := mkState (new_lines st3) true 9 in
        append st4 (heading (current_section_num st4) title)
      else if inserted st then
        let st1 :=
          mkState (new_lines st) (inserted st) (current_section_num st + 1) in
        append st1 (heading (current_section_num st1) title)
      else append st line
  | None => append st line
  end.

Definition init : state := mkState [] false 0.

(** [for line in lines: ...], from the initial values of the variables. *)
Definition loop (lines : list text) : state := fold_left step lines init.

(** From [content] as read to the text that is written back. *)
Definition update_specs (content : text) : text :=
  let lines := split content in
  join (new_lines (loop lines)).

(** What the loop appends when it meets the first section 8. *)
Definition block : list text := [strip new_use_case; []; []].

(** The script, from the first [open] to the last [print]. *)
Definition main : Script.script unit :=
  content <- Script.read_file ;;
  Script.write_file (update_specs content) ;;;
  Script.print "Successfully updated use-case-specifications.md".

(** *** Vocabulary of the properties *)

(** What the script reads in a heading line: its number and its title. *)
Definition section_of (line : text) : option (N * text) :=
  match section_pattern line with
  | Some (g1, title) => Some (int g1, title)
  | None => None
  end.

(** The headings of a document, in order. *)
Definition sections (doc : text) : list (N * text) :=
  filter_map section_of (split doc).

Definition numbers (doc : text) : list N := map fst (sections doc).

(** A heading line that carries the number 8. *)
Definition is_section_8 (line : text) : bool :=
  match section_of line with
  | Some (num, _) => num =? 8
  | None => false
  end.

(** Titles numbered [c], [c+1], ... in their order. *)
Fixpoint number_from (c : N) (titles : list text) : list (N * text) :=
  match titles with
  | [] => []
  | t :: ts => (c, t) :: number_from (c + 1) ts
  end.

(** Renumbering as the specification words it: the heading lines of
    [lines] receive [c], [c+1], ... in their order and keep their titles,
    the other lines are kept. *)
Fixpoint renumber (c : N) (lines : list text) : list text :=
  match lines with
  | [] => []
  | l :: ls =>
      match section_of l with
      | Some (_, title) => heading c title :: renumber (c + 1) ls
      | None => l :: renumber c ls
      end
  end.

End WithUnicode.

End UpdateSpecs.

(** ** update_specs_employer.py *)

Module Employer.

Definition new_section : text := literal [
    "";
    "## 18. Employer Onboarding";
    "";
    "**1. Use Case Name**";
    "Employer Onboarding";
    "";
    "**2. Description (Purpose)**";
    "This use case guides the Employer through the initial company profile setup and verification document submission.";
    "";
    "**3. Primary Actor**";
    "Employer";
    "";
    "**4. Supporting Actors**";
    "Admin (for subsequent verification)";
    "";
    "**5. Stakeholders and Interests**";
    "";
    "- **Employer:** Wants to get their account verified to start posting jobs.";
    "- **Admin:** Needs to verify legitimate businesses.";
    "";
    "**6. Preconditions**";
    "- Employer account is created and email verified.";
    "- Onboarding is not completed.";
    "";
    "**7. Postconditions**";
    "- **Success:** Company profile and documents submitted for review. Account status set to Pending.";
    "- **Failure:** Onboarding remains incomplete.";
    "";
    "**8. Trigger**";
    "User completes account verification or logs in with an incomplete profile/verification.";
    "";
    "**9. Main Success Scenario (Standard Flow)**";
    "";
    "1.  System initiates Employer Onboarding Flow.";
    "2.  User completes Company Profile details.";
    "3.  User uploads Verification Documents.";
    "4.  System displays summary.";
    "5.  User reviews information.";
    "6.  User clicks " ++ dq ++ "Continue" ++ dq ++ ".";
    "7.  System sets account status to " ++ dq ++ "Pending" ++ dq ++ ".";
    "8.  System notifies Admin for review.";
    "9.  System shows " ++ dq ++ "Pending Approval" ++ dq ++ " screen.";
    "";
    "**10. Alternative Flows**";
    "";
    "- **A1: Edit Information**";
    "  1.  User chooses to edit information during review.";
    "  2.  System navigates back to the relevant step.";
    "";
    "**11. Exception Flows**";
    "";
    "- **E1: Validation Error:** System shows error message.";
    "- **E2: Upload Failed:** Document upload fails; system prompts to retry.";
    "";
    "---"
  ]%string.

Section WithUnicode.
Context {U : Unicode}.

(** [re.search(r"^## 18\.", content, re.MULTILINE)]: the offset of the
    first match.  [bol] tells whether the current position is at the start
    of a line, where [^] matches. *)
Fixpoint search_from (bol : bool) (s : text) : option nat :=
  match (if bol then strip_prefix (T "## 18.") s else None) with
  | Some _ => Some 0%nat
  | None =>
      match s with
      | [] => None
      | c :: s' => option_map S (search_from (is_newline c) s')
      end
  end.

Definition search (content : text) : option nat := search_from true content.

(** One match of [## (\d+)\.] at the current position: group 1 and the
    text after the match. *)
Definition header_pattern (s : text) : option (text * text) :=
  match strip_prefix (T "## ") s with
  | None => None
  | Some r =>
      match span is_digit r with
      | ([], _) => None
      | (ds, r1) =>
          match strip_prefix (T ".") r1 with
          | None => None
          | Some r2 => Some (ds, r2)
          end
      end
  end.

(** lambda m: f"## {int(m.group(1)) + 1}." *)
Definition replace_header (g1 : text) : text :=
  T "## " ++ str (int g1 + 1) ++ T ".".

(** [re.sub(r"^## (\d+)\.", replace_header, s, flags=re.MULTILINE)].  The
    scan goes left to right; [skip] counts the characters of the last
    match that are still to be passed over, and [bol] is as in
    [search_from]. *)
Fixpoint sub_from (skip : nat) (bol : bool) (s : text) : text :=
  match s with
  | [] => []
  | c :: s' =>
      match skip with
      | S k => sub_from k false s'
      | O =>
          match (if bol then header_pattern s else None) with
          | Some (g1, rest) =>
              replace_header g1
                ++ sub_from (List.length s - List.length rest - 1) false s'
          | None => c :: sub_from 0 (is_newline c) s'
          end
      end
  end.

Definition sub (s : text) : text := sub_from 0 true s.

(** From [content] as read to [new_content], or [None] where the script
    stops at [exit(1)]. *)
Definition update_specs_employer (content : text) : option text :=
  match search content with
  | None => None
  | Some insert_index =>
      let before := firstn insert_index content in
      let after := skipn insert_index content in
      let after_renumbered := sub after in
      Some (before ++ new_section ++ after_renumbered)
  end.

(** The script, from the first [open] to the last [print]. *)
Definition main : Script.script unit :=
  content <- Script.read_file ;;
  match update_specs_employer content with
  | None =>
      Script.print "Could not find Section 18." ;;;
      Script.exit 1
  | Some new_content =>
      Script.write_file new_content ;;;
      Script.print
        "Successfully inserted Employer Onboarding and renumbered sections."
  end.

(** *** Vocabulary of the properties *)

(** A line that begins with [## 18.], what the script searches for. *)
Definition starts_18 (line : text) : bool :=
  match strip_prefix (T "## 18.") line with
  | Some _ => true
  | None => false
  end.

(** The number of a line that begins with [## <digits>.] *)
Definition number_of (line : text) : option N :=
  match header_pattern line with
  | Some (g1, _) => Some (int g1)
  | None => None
  end.

Definition numbers (doc : text) : list N :=
  filter_map number_of (split doc).

(** The lines of the new section. *)
Definition new_section_lines : list text := split (removelast new_section).

(** One line with its heading number, if it has one, increased by one. *)
Definition bump_line (line : text) : text :=
  match header_pattern line with
  | Some (g1, rest) => replace_header g1 ++ rest
  | None => line
  end.

End WithUnicode.

End Employer.

(** ** Sample documents *)

Module Samples.

(** [n] sections numbered 1 to [n]. *)
Definition numbered (n : nat) : text :=
  join (flat_map
          (fun i => [UpdateSpecs.heading (N.of_nat i) (T "Use case");
                     T "Steps."; []])
          (seq 1 n)).

Definition doc_1_2_4 : text := T "## 1. Register
Steps.

## 2. Login
Steps.

## 4. Search
Steps.".

Definition doc_1_2_4_18 : text := T "## 1. Register
## 2. Login
## 4. Search
## 18. Create Job Post".

(** Section 8, whose body quotes a heading. *)
Definition doc_example_8 : text := T "## 8. Create Job Post
A heading is written like this:
## 3. Example

## 9. Edit Job Post
Steps.".

Definition doc_example_18 : text := T "## 18. Create Job Post
A heading is written like this:
## 3. Example

## 19. Edit Job Post
Steps.".

Definition doc_plain : text := T "Use cases

To be written.".

End Samples.

(** * Properties *)

Section Generic.
Context {U : Unicode}.

(** ** Lines *)

Lemma is_newline_true c : is_newline c = true <-> c = newline.
Proof. apply N.eqb_eq. Qed.

Lemma is_newline_false c : is_newline c = false <-> c <> newline.
Proof. apply N.eqb_neq. Qed.

Lemma is_newline_newline : is_newline newline = true.
Proof. reflexivity. Qed.

Lemma split_cons_nl s : split (newline :: s) = [] :: split s.
Proof. unfold split; simpl. destruct (split_nl s). reflexivity. Qed.

Lemma split_cons_other c s :
  c <> newline ->
  split (c :: s) = (c :: hd [] (split s)) :: tl (split s).
Proof.
  intros H. unfold split; simpl. destruct (split_nl s) as [l ls].
  apply is_newline_false in H. rewrite H. reflexivity.
Qed.

Lemma split_not_nil s : split s <> [].
Proof. unfold split. destruct (split_nl s). discriminate. Qed.

Lemma split_hd_tl s : split s = hd [] (split s) :: tl (split s).
Proof. unfold split. destruct (split_nl s). reflexivity. Qed.

Lemma split_single l : no_nl l -> split l = [l].
Proof.
  induction l as [|c l IH]; intros H; [reflexivity|].
  rewrite split_cons_other.
  - rewrite IH; [reflexivity|]. intros Hin. apply H. now right.
  - intros ->. apply H. now left.
Qed.

Lemma split_app_nl a b : split (a ++ newline :: b) = split a ++ split b.
Proof.
  induction a as [|c a IH]; simpl.
  - apply split_cons_nl.
  - destruct (is_newline c) eqn:E.
    + apply is_newline_true in E; subst c.
      rewrite !split_cons_nl, IH. reflexivity.
    + apply is_newline_false in E.
      rewrite !split_cons_other by assumption. rewrite IH.
      rewrite (split_hd_tl a) at 1 2. reflexivity.
Qed.

Lemma split_app_line a b :
  split ((a ++ [newline]) ++ b) = split a ++ split b.
Proof. rewrite <- app_assoc. apply split_app_nl. Qed.

Lemma split_no_nl s : Forall no_nl (split s).
Proof.
  induction s as [|c s IH].
  - constructor; [intros []|constructor].
  - destruct (is_newline c) eqn:E.
    + apply is_newline_true in E; subst c. rewrite split_cons_nl.
      constructor; [intros []|assumption].
    + apply is_newline_false in E. rewrite split_cons_other by assumption.
      rewrite split_hd_tl in IH. inversion IH; subst.
      constructor; [|assumption].
      intros [H|H]; [now apply E|now auto].
Qed.

Lemma join_cons x rest :
  rest <> [] -> join (x :: rest) = x ++ newline :: join rest.
Proof. destruct rest; [congruence|reflexivity]. Qed.

Lemma join_app l1 l2 :
  l1 <> [] -> l2 <> [] -> join (l1 ++ l2) = join l1 ++ newline :: join l2.
Proof.
  induction l1 as [|x l1 IH]; intros H1 H2; [congruence|].
  destruct l1 as [|y l1].
  - apply join_cons. assumption.
  - change ((x :: y :: l1) ++ l2) with (x :: (y :: l1) ++ l2).
    rewrite join_cons by (simpl; discriminate).
    rewrite IH by (assumption || discriminate).
    rewrite (join_cons x (y :: l1)) by discriminate.
    rewrite <- app_assoc. reflexivity.
Qed.

Lemma join_split s : join (split s) = s.
Proof.
  induction s as [|c s IH]; [reflexivity|].
  destruct (is_newline c) eqn:E.
  - apply is_newline_true in E; subst c. rewrite split_cons_nl.
    rewrite join_cons by apply split_not_nil. now rewrite IH.
  - apply is_newline_false in E. rewrite split_cons_other by assumption.
    destruct (split s) as [|l [|l' ls]]; simpl in *; now subst s.
Qed.

Lemma split_join items :
  items <> [] -> split (join items) = flat_map split items.
Proof.
  induction items as [|x items IH]; intros H; [congruence|].
  destruct items as [|y items].
  - simpl. now rewrite app_nil_r.
  - rewrite join_cons by discriminate. rewrite split_app_nl.
    rewrite IH by discriminate. reflexivity.
Qed.

Lemma flat_map_split_lines ls :
  Forall no_nl ls -> flat_map split ls = ls.
Proof.
  induction 1 as [|l ls Hl _ IH]; [reflexivity|].
  simpl. rewrite split_single by assumption. now rewrite IH.
Qed.


Lemma unlines_cons l ls : unlines (l :: ls) = l ++ newline :: unlines ls.
Proof. unfold unlines. simpl. now rewrite <- app_assoc. Qed.

Lemma unlines_app_assoc l ls t :
  unlines (l :: ls) ++ t = l ++ newline :: (unlines ls ++ t).
Proof. rewrite unlines_cons, <- app_assoc. reflexivity. Qed.

Lemma split_unlines ls t :
  Forall no_nl ls -> split (unlines ls ++ t) = ls ++ split t.
Proof.
  induction 1 as [|l ls Hl _ IH]; [reflexivity|].
  rewrite unlines_app_assoc, split_app_nl, IH.
  now rewrite split_single.
Qed.

Lemma join_unlines ls h rest :
  join (ls ++ h :: rest) = unlines ls ++ join (h :: rest).
Proof.
  induction ls as [|l ls IH]; [reflexivity|].
  rewrite unlines_app_assoc, <- IH.
  change ((l :: ls) ++ h :: rest) with (l :: (ls ++ h :: rest)).
  apply join_cons. destruct ls; discriminate.
Qed.

Lemma unlines_app l1 l2 : unlines (l1 ++ l2) = unlines l1 ++ unlines l2.
Proof. apply flat_map_app. Qed.

Lemma Some_inj {A} (a b : A) : Some a = Some b -> a = b.
Proof. congruence. Qed.

Lemma unlines_join ls : ls <> [] -> unlines ls = join ls ++ [newline].
Proof.
  induction ls as [|l ls IH]; intros H; [congruence|].
  rewrite unlines_cons. destruct ls as [|l' ls].
  - reflexivity.
  - rewrite IH by discriminate.
    rewrite (join_cons l (l' :: ls)) by discriminate.
    now rewrite <- app_assoc.
Qed.

Lemma unlines_split x : unlines (split x) = x ++ [newline].
Proof. rewrite unlines_join by apply split_not_nil. now rewrite join_split. Qed.

Lemma split_join_lines ls :
  ls <> [] -> Forall no_nl ls -> split (join ls) = ls.
Proof.
  intros Hne Hnl. rewrite split_join by assumption.
  now apply flat_map_split_lines.
Qed.

(** A document cut before one of its lines. *)
Lemma split_cut content l1 h l2 :
  split content = l1 ++ h :: l2 ->
  content = unlines l1 ++ join (h :: l2).
Proof. intros H. rewrite <- join_unlines, <- H. symmetry. apply join_split. Qed.

(** ** Matching *)

Lemma strip_prefix_app p r : strip_prefix p (p ++ r) = Some r.
Proof.
  induction p as [|a p IH]; [reflexivity|].
  simpl. now rewrite N.eqb_refl.
Qed.

Lemma strip_prefix_Some p s r : strip_prefix p s = Some r -> s = p ++ r.
Proof.
  revert s. induction p as [|a p IH]; intros s H; simpl in H.
  - now inversion H.
  - destruct s as [|c s]; [discriminate|].
    destruct (N.eqb a c) eqn:E; [|discriminate].
    apply N.eqb_eq in E; subst c. simpl. f_equal. now apply IH.
Qed.

Lemma span_app f s : fst (span f s) ++ snd (span f s) = s.
Proof.
  induction s as [|c s IH]; [reflexivity|].
  simpl. destruct (f c); [|reflexivity].
  destruct (span f s); simpl in *. now rewrite IH.
Qed.

Lemma span_fst_all f s : Forall (fun c => f c = true) (fst (span f s)).
Proof.
  induction s as [|c s IH]; simpl; [constructor|].
  destruct (f c) eqn:E; [|constructor].
  destruct (span f s); simpl in *. now constructor.
Qed.

Lemma span_snd_stop f s :
  match snd (span f s) with [] => True | c :: _ => f c = false end.
Proof.
  induction s as [|c s IH]; simpl; [exact I|].
  destruct (f c) eqn:E; [|exact E].
  destruct (span f s); simpl in *. exact IH.
Qed.

Lemma span_exact f a b :
  Forall (fun c => f c = true) a ->
  match b with [] => True | c :: _ => f c = false end ->
  span f (a ++ b) = (a, b).
Proof.
  intros Ha Hb. induction Ha as [|c a Hc _ IH]; simpl.
  - destruct b as [|c b]; [reflexivity|]. simpl. now rewrite Hb.
  - now rewrite Hc, IH.
Qed.

Lemma strip_prefix_line p l s :
  no_nl p ->
  strip_prefix p (l ++ newline :: s) =
    option_map (fun r => r ++ newline :: s) (strip_prefix p l).
Proof.
  revert l. induction p as [|a p IH]; intros l Hp; [reflexivity|].
  assert (Ha : a <> newline) by (intros ->; apply Hp; now left).
  assert (Hp' : no_nl p) by (intros Hin; apply Hp; now right).
  destruct l as [|c l]; simpl.
  - destruct (N.eqb a newline) eqn:E; [|reflexivity].
    apply N.eqb_eq in E. contradiction.
  - destruct (N.eqb a c); [now apply IH|reflexivity].
Qed.

Lemma strip_prefix_weaken p l t r :
  strip_prefix p l = Some r -> strip_prefix p (l ++ t) = Some (r ++ t).
Proof.
  intros H. apply strip_prefix_Some in H. subst l.
  rewrite <- app_assoc. apply strip_prefix_app.
Qed.

Lemma span_app_stop f a c b :
  f c = false ->
  span f (a ++ c :: b) = (fst (span f a), snd (span f a) ++ c :: b).
Proof.
  intros Hc. induction a as [|x a IH]; simpl.
  - now rewrite Hc.
  - destruct (f x); [|reflexivity].
    rewrite IH. now destruct (span f a).
Qed.

(** ** Numerals *)

Lemma digits_of_uint_digits d :
  Forall (fun c => is_digit c = true) (digits_of_uint d).
Proof. induction d; simpl; constructor; (reflexivity || assumption). Qed.

Lemma uint_of_digits_of_uint d : uint_of_digits (digits_of_uint d) = d.
Proof. induction d; simpl; [reflexivity|..]; now rewrite IHd. Qed.

Lemma int_str n : int (str n) = n.
Proof.
  unfold int, str. rewrite uint_of_digits_of_uint. apply DecimalN.Unsigned.of_to.
Qed.

Lemma str_digits n : Forall (fun c => is_digit c = true) (str n).
Proof. apply digits_of_uint_digits. Qed.

Lemma str_not_nil n : str n <> [].
Proof.
  unfold str. destruct n as [|p]; [discriminate|].
  simpl. pose proof (DecimalPos.Unsigned.to_uint_nonnil p) as H.
  destruct (Pos.to_uint p); [congruence|discriminate..].
Qed.

Lemma span_str n r :
  match r with [] => True | c :: _ => is_digit c = false end ->
  span is_digit (str n ++ r) = (str n, r).
Proof. intros H. apply span_exact; [apply str_digits|assumption]. Qed.


(** ** Lists of numbers *)

Lemma filter_map_app {A B} (f : A -> option B) l1 l2 :
  filter_map f (l1 ++ l2) = filter_map f l1 ++ filter_map f l2.
Proof. apply flat_map_app. Qed.

Lemma upto_length n : List.length (upto n) = n.
Proof. unfold upto. now rewrite length_map, length_seq. Qed.

Lemma upto_nth n i : (i < n)%nat -> nth i (upto n) 0 = N.of_nat (S i).
Proof.
  intros H. unfold upto.
  change 0 with (N.of_nat 0). rewrite map_nth. now rewrite seq_nth.
Qed.

Lemma seq_firstn k : forall s n,
  (k <= n)%nat -> firstn k (seq s n) = seq s k.
Proof.
  induction k as [|k IH]; intros s n H; [reflexivity|].
  destruct n as [|n]; [lia|]. simpl. f_equal. apply IH. lia.
Qed.

Lemma upto_firstn n k : (k <= n)%nat -> firstn k (upto n) = upto k.
Proof.
  intros H. unfold upto. now rewrite firstn_map, seq_firstn.
Qed.

(** Where [k] stands in 1, 2, ..., n. *)
Lemma upto_split n a k b :
  upto n = a ++ N.of_nat k :: b ->
  a = upto (k - 1) /\ (List.length a + 1 = k /\ k + List.length b = n)%nat.
Proof.
  intros H.
  assert (Hlen : (List.length a + S (List.length b) = n)%nat).
  { rewrite <- (upto_length n), H, length_app. reflexivity. }
  assert (Hk : (S (List.length a) = k)%nat).
  { apply Nat2N.inj. rewrite <- (upto_nth n) by lia.
    rewrite H, nth_middle. reflexivity. }
  split; [|lia].
  replace (k - 1)%nat with (List.length a) by lia.
  rewrite <- (upto_firstn n) by lia.
  rewrite H, firstn_app, Nat.sub_diag, firstn_all. simpl. now rewrite app_nil_r.
Qed.

Lemma upto_app n m : upto (n + m) = upto n ++ map N.of_nat (seq (S n) m).
Proof. unfold upto. now rewrite seq_app, map_app. Qed.

Lemma seq_succ a m :
  map (fun x => x + 1) (map N.of_nat (seq a m)) = map N.of_nat (seq (S a) m).
Proof.
  rewrite <- seq_shift, !map_map. apply map_ext. intros x. lia.
Qed.

(** What follows [k - 1] in 1, 2, ..., n. *)
Lemma upto_tail n k b :
  upto n = upto (k - 1) ++ N.of_nat k :: b -> (1 <= k)%nat ->
  N.of_nat k :: b = map N.of_nat (seq k (n - (k - 1))).
Proof.
  intros H Hk. destruct (upto_split n _ k b H) as (_ & _ & Hlen).
  replace n with ((k - 1) + (n - (k - 1)))%nat in H at 1 by lia.
  rewrite upto_app in H. apply app_inv_head in H.
  rewrite <- H. f_equal. f_equal. lia.
Qed.

Lemma upto_In_inv n x : In x (upto n) -> exists k, x = N.of_nat k /\ (1 <= k <= n)%nat.
Proof.
  unfold upto. intros H. apply in_map_iff in H. destruct H as (k & <- & Hk).
  apply in_seq in Hk. exists k. split; [reflexivity|lia].
Qed.

Lemma Forall_false_forallb {A} (p : A -> bool) ls :
  forallb (fun a => negb (p a)) ls = true -> Forall (fun a => p a = false) ls.
Proof.
  intros H. apply Forall_forall. intros a Hin.
  rewrite forallb_forall in H. apply H in Hin. now destruct (p a).
Qed.

(** Deciding by evaluation. *)

Lemma mem_true x ls : mem x ls = true -> In x ls.
Proof.
  unfold mem. intros H. apply existsb_exists in H. destruct H as (l & Hl & E).
  destruct (list_eq_dec N.eq_dec x l); [now subst|discriminate].
Qed.

Lemma mem_false x ls : mem x ls = false -> ~ In x ls.
Proof.
  unfold mem. intros H Hin.
  assert (E : existsb
            (fun l => if list_eq_dec N.eq_dec x l then true else false)
            ls = true).
  { apply existsb_exists. exists x. split; [assumption|].
    destruct (list_eq_dec N.eq_dec x x); congruence. }
  congruence.
Qed.

Lemma no_nl_forallb ls :
  forallb (forallb (fun c => negb (is_newline c))) ls = true ->
  Forall no_nl ls.
Proof.
  intros H. apply Forall_forall. intros l Hl Hin.
  rewrite forallb_forall in H. apply H in Hl.
  rewrite forallb_forall in Hl. apply Hl in Hin.
  rewrite is_newline_newline in Hin. discriminate.
Qed.

End Generic.

(** ** The loop of docs/update_specs.py *)

Module UpdateSpecsFacts.
Import UpdateSpecs.

Section WithUnicode.
Context {U : Unicode}.

Lemma section_pattern_title line g1 title :
  section_pattern line = Some (g1, title) -> title <> [] /\ no_nl title.
Proof.
  unfold section_pattern. intros H.
  destruct (strip_prefix (T "## ") line) as [r|]; [|discriminate].
  destruct (span is_digit r) as [[|d ds] r1]; [discriminate|].
  destruct (strip_prefix (T ". ") r1) as [r2|]; [|discriminate].
  pose proof (span_fst_all (fun c => negb (is_newline c)) r2) as Hall.
  destruct (fst (span (fun c => negb (is_newline c)) r2)) as [|c t] eqn:E;
    [discriminate|].
  inversion H; subst. split; [discriminate|].
  intros Hin. rewrite Forall_forall in Hall. apply Hall in Hin.
  rewrite is_newline_newline in Hin. discriminate.
Qed.

Lemma section_of_title line num title :
  section_of line = Some (num, title) -> title <> [] /\ no_nl title.
Proof.
  unfold section_of. destruct (section_pattern line) as [[g1 t]|] eqn:E;
    [|discriminate].
  intros H; inversion H; subst. eapply section_pattern_title; eauto.
Qed.

Lemma section_pattern_heading n title :
  title <> [] -> no_nl title ->
  section_pattern (heading n title) = Some (str n, title).
Proof.
  intros Hne Hnl. unfold section_pattern, heading.
  rewrite strip_prefix_app.
  rewrite span_str by reflexivity.
  pose proof (str_not_nil n) as Hs.
  destruct (str n) as [|d ds] eqn:E; [congruence|].
  rewrite strip_prefix_app.
  replace title with (title ++ []) at 1 by apply app_nil_r.
  rewrite span_exact; [| |exact I].
  - simpl. destruct title; [congruence|reflexivity].
  - rewrite Forall_forall. intros c Hc.
    destruct (is_newline c) eqn:Ec; [|reflexivity].
    apply is_newline_true in Ec; subst c. contradiction.
Qed.

Lemma section_of_heading n title :
  title <> [] -> no_nl title -> section_of (heading n title) = Some (n, title).
Proof.
  intros. unfold section_of. rewrite section_pattern_heading by assumption.
  now rewrite int_str.
Qed.

Lemma heading_no_nl n title : no_nl title -> no_nl (heading n title).
Proof.
  intros H Hin. unfold heading in Hin.
  rewrite !in_app_iff in Hin.
  destruct Hin as [Hin|[Hin|[Hin|Hin]]].
  - simpl in Hin. intuition discriminate.
  - pose proof (str_digits n) as Hd. rewrite Forall_forall in Hd.
    apply Hd in Hin. discriminate.
  - simpl in Hin. intuition discriminate.
  - contradiction.
Qed.

(** The loop before the insertion: lines are copied. *)
Lemma step_copy st line :
  inserted st = false -> is_section_8 line = false ->
  step st line = append st line.
Proof.
  intros Hi H8. unfold step, is_section_8, section_of in *.
  destruct (section_pattern line) as [[g1 title]|]; [|reflexivity].
  rewrite H8, Hi. reflexivity.
Qed.

Lemma run_copy l1 : forall st,
  inserted st = false ->
  Forall (fun l => is_section_8 l = false) l1 ->
  fold_left step l1 st =
    mkState (new_lines st ++ l1) false (current_section_num st).
Proof.
  induction l1 as [|l l1 IH]; intros st Hi Hall; simpl.
  - rewrite app_nil_r. destruct st; simpl in *; now subst.
  - inversion Hall; subst.
    rewrite step_copy by assumption.
    rewrite IH by assumption. simpl. now rewrite <- app_assoc.
Qed.

(** The loop at the first heading numbered 8. *)
Lemma step_insert st line num title :
  inserted st = false -> section_of line = Some (num, title) ->
  is_section_8 line = true ->
  step st line =
    mkState (new_lines st ++ block ++ [heading 9 title]) true 9.
Proof.
  intros Hi Hs H8. unfold step, is_section_8 in *. rewrite Hs in H8.
  unfold section_of in Hs.
  destruct (section_pattern line) as [[g1 t]|]; [|discriminate].
  inversion Hs; subst. rewrite H8, Hi. simpl.
  unfold append; simpl. now rewrite <- !app_assoc.
Qed.

(** The loop after the insertion: headings take the next number. *)
Lemma run_renumber l2 : forall st,
  inserted st = true ->
  new_lines (fold_left step l2 st) =
    new_lines st ++ renumber (current_section_num st + 1) l2.
Proof.
  induction l2 as [|l l2 IH]; intros st Hi; simpl.
  - now rewrite app_nil_r.
  - unfold step at 2, section_of.
    destruct (section_pattern l) as [[g1 title]|].
    + rewrite Hi, andb_false_r. rewrite IH by reflexivity.
      simpl. now rewrite <- app_assoc.
    + rewrite IH by exact Hi. simpl. now rewrite <- app_assoc.
Qed.

Lemma first_section_8 lines :
  Forall (fun l => is_section_8 l = false) lines \/
  exists l1 h l2,
    lines = l1 ++ h :: l2 /\
    Forall (fun l => is_section_8 l = false) l1 /\ is_section_8 h = true.
Proof.
  induction lines as [|l lines IH]; [left; constructor|].
  destruct (is_section_8 l) eqn:E.
  - right. exists [], l, lines. split; [reflexivity|]. split; [constructor|assumption].
  - destruct IH as [IH|(l1 & h & l2 & -> & Hall & Hh)].
    + left. now constructor.
    + right. exists (l :: l1), h, l2.
      split; [reflexivity|]. split; [now constructor|assumption].
Qed.

Lemma is_section_8_inv h :
  is_section_8 h = true -> exists title, section_of h = Some (8, title).
Proof.
  unfold is_section_8. destruct (section_of h) as [[num title]|];
    [|discriminate].
  intros H. apply N.eqb_eq in H; subst. now exists title.
Qed.

(** Without a heading numbered 8 the text is written back as it was. *)
Lemma update_specs_no8 content :
  Forall (fun l => is_section_8 l = false) (split content) ->
  update_specs content = content.
Proof.
  intros H. unfold update_specs, loop.
  rewrite run_copy by (reflexivity || assumption).
  simpl. apply join_split.
Qed.

(** With one, the block goes before the first such heading and the
    headings from there on are renumbered from 9. *)
Lemma update_specs_insert content l1 h l2 :
  split content = l1 ++ h :: l2 ->
  Forall (fun l => is_section_8 l = false) l1 ->
  is_section_8 h = true ->
  update_specs content = join (l1 ++ block ++ renumber 9 (h :: l2)).
Proof.
  intros Hs Hall Hh. unfold update_specs, loop. rewrite Hs.
  rewrite fold_left_app. rewrite (run_copy l1) by (reflexivity || assumption).
  simpl fold_left. destruct (is_section_8_inv h Hh) as [title Ht].
  rewrite (step_insert _ h 8 title) by (reflexivity || assumption).
  rewrite run_renumber by reflexivity. simpl new_lines.
  simpl renumber. rewrite Ht.
  rewrite <- !app_assoc. reflexivity.
Qed.

(** *** The headings of what is written *)

Lemma block_sections :
  filter_map section_of (flat_map split block) = [(8, T "Onboarding")].
Proof. vm_compute. reflexivity. Qed.

Lemma block_verbatim : strip new_use_case ++ [newline; newline] = new_use_case.
Proof. vm_compute. reflexivity. Qed.

Lemma renumber_no_nl ls : forall c,
  Forall no_nl ls -> Forall no_nl (renumber c ls).
Proof.
  induction ls as [|l ls IH]; intros c H; simpl; [constructor|].
  inversion H; subst.
  destruct (section_of l) as [[num title]|] eqn:E.
  - constructor; [|now apply IH].
    apply heading_no_nl. eapply section_of_title; eauto.
  - constructor; [assumption|now apply IH].
Qed.

Lemma renumber_sections ls : forall c,
  filter_map section_of (renumber c ls) =
    number_from c (map snd (filter_map section_of ls)).
Proof.
  induction ls as [|l ls IH]; intros c; simpl; [reflexivity|].
  destruct (section_of l) as [[num title]|] eqn:E; simpl.
  - destruct (section_of_title _ _ _ E) as [Hne Hnl].
    rewrite section_of_heading by assumption. simpl. now rewrite IH.
  - rewrite E. simpl. apply IH.
Qed.

Lemma number_from_numbers ts : forall k,
  map fst (number_from (N.of_nat k) ts) = map N.of_nat (seq k (List.length ts)).
Proof.
  induction ts as [|t ts IH]; intros k; simpl; [reflexivity|].
  f_equal. replace (N.of_nat k + 1) with (N.of_nat (S k)) by lia. apply IH.
Qed.

Lemma number_from_titles ts : forall c, map snd (number_from c ts) = ts.
Proof. induction ts as [|t ts IH]; intros c; simpl; [|rewrite IH]; reflexivity. Qed.

Lemma update_specs_insert_sections content l1 h l2 :
  split content = l1 ++ h :: l2 ->
  Forall (fun l => is_section_8 l = false) l1 ->
  is_section_8 h = true ->
  sections (update_specs content) =
    filter_map section_of l1 ++
    (8, T "Onboarding") ::
    number_from 9 (map snd (filter_map section_of (h :: l2))).
Proof.
  intros Hs Hall Hh. unfold sections.
  rewrite (update_specs_insert content l1 h l2) by assumption.
  pose proof (split_no_nl content) as Hnl. rewrite Hs in Hnl.
  apply Forall_app in Hnl. destruct Hnl as [Hnl1 Hnl2].
  rewrite split_join by (destruct l1; discriminate).
  rewrite !flat_map_app, !filter_map_app.
  rewrite (flat_map_split_lines l1) by assumption.
  rewrite block_sections.
  rewrite flat_map_split_lines by (apply renumber_no_nl; assumption).
  rewrite renumber_sections. reflexivity.
Qed.

(** *** Contiguous numbering *)

Lemma no_section_8_numbers ls :
  Forall (fun l => is_section_8 l = false) ls ->
  ~ In 8 (map fst (filter_map section_of ls)).
Proof.
  induction 1 as [|l ls Hl _ IH]; [intros []|].
  simpl. unfold is_section_8 in Hl.
  destruct (section_of l) as [[num title]|]; [|exact IH].
  simpl. intros [E|Hin]; [|now apply IH].
  subst num. discriminate.
Qed.

Lemma upto_In n k : (1 <= k <= n)%nat -> In (N.of_nat k) (upto n).
Proof. intros H. apply in_map, in_seq. lia. Qed.

(** With at least eight sections numbered 1..n, the result has the
    sections 1..n+1. *)
Lemma update_specs_numbers content n :
  numbers content = upto n -> (8 <= n)%nat ->
  numbers (update_specs content) = upto (n + 1).
Proof.
  intros Hn Hle.
  destruct (first_section_8 (split content))
    as [Hno|(l1 & h & l2 & Hs & Hall & Hh)].
  - exfalso. apply (no_section_8_numbers _ Hno).
    fold (sections content). fold (numbers content). rewrite Hn.
    apply (upto_In n 8). lia.
  - destruct (is_section_8_inv h Hh) as [title Ht].
    unfold numbers in *.
    rewrite (update_specs_insert_sections content l1 h l2) by assumption.
    unfold sections in Hn. rewrite Hs, filter_map_app, map_app in Hn.
    simpl in Hn. rewrite Ht in Hn. simpl in Hn.
    symmetry in Hn.
    apply (upto_split n _ 8) in Hn. destruct Hn as (Ha & _ & Hb).
    rewrite map_app, Ha. simpl. rewrite Ht. simpl.
    rewrite length_map in Hb.
    change 10 with (N.of_nat 10).
    rewrite number_from_numbers, !length_map.
    replace (n + 1)%nat with (7 + (2 + List.length (filter_map section_of l2)))%nat
      by lia.
    rewrite upto_app. reflexivity.
Qed.

Lemma numbers_section_8 content l1 h l2 :
  split content = l1 ++ h :: l2 -> is_section_8 h = true ->
  In 8 (numbers content).
Proof.
  intros Hs Hh. destruct (is_section_8_inv h Hh) as [title Ht].
  unfold numbers, sections. rewrite Hs, filter_map_app, map_app.
  apply in_or_app. right. simpl. rewrite Ht. now left.
Qed.

(** Fewer than eight sections: nothing is inserted. *)
Lemma update_specs_below_8 content n :
  numbers content = upto n -> (n < 8)%nat -> update_specs content = content.
Proof.
  intros Hn Hlt. apply update_specs_no8.
  destruct (first_section_8 (split content))
    as [Hno|(l1 & h & l2 & Hs & _ & Hh)]; [assumption|].
  exfalso. pose proof (numbers_section_8 content l1 h l2 Hs Hh) as Hin.
  rewrite Hn in Hin. apply upto_In_inv in Hin.
  destruct Hin as (k & Hk & Hle). lia.
Qed.

Lemma renumber_not_nil c h l2 :
  is_section_8 h = true -> renumber c (h :: l2) <> [].
Proof.
  intros Hh. destruct (is_section_8_inv h Hh) as [title Ht].
  simpl. rewrite Ht. discriminate.
Qed.

(** The text written when a section 8 is met: what was before it, the
    literal, one more newline, the renumbered rest. *)
Lemma update_specs_insert_text content l1 h l2 :
  split content = l1 ++ h :: l2 ->
  Forall (fun l => is_section_8 l = false) l1 ->
  is_section_8 h = true ->
  update_specs content =
    unlines l1 ++ new_use_case ++ newline :: join (renumber 9 (h :: l2)).
Proof.
  intros Hs Hall Hh.
  rewrite (update_specs_insert content l1 h l2) by assumption.
  pose proof (renumber_not_nil 9 h l2 Hh) as Hne.
  set (R := renumber 9 (h :: l2)) in *.
  change (block ++ R) with (strip new_use_case :: [] :: [] :: R).
  rewrite join_unlines.
  rewrite !join_cons by (assumption || discriminate).
  rewrite <- block_verbatim at 2. rewrite <- app_assoc. reflexivity.
Qed.

(** The lines before the first section 8 are written as they were. *)
Lemma update_specs_prefix content l1 h l2 :
  split content = l1 ++ h :: l2 ->
  Forall (fun l => is_section_8 l = false) l1 ->
  exists rest, update_specs content = unlines l1 ++ rest.
Proof.
  intros Hs Hall.
  destruct (first_section_8 (h :: l2)) as [Hno|(a & h' & b & E & Ha & Hh')].
  - rewrite update_specs_no8.
    + exists (join (h :: l2)). now apply split_cut.
    + rewrite Hs. apply Forall_app. now split.
  - rewrite E in Hs. rewrite app_assoc in Hs.
    rewrite (update_specs_insert content (l1 ++ a) h' b Hs)
      by (try apply Forall_app; auto).
    rewrite <- app_assoc.
    set (R := renumber 9 (h' :: b)).
    change (block ++ R) with (strip new_use_case :: [] :: [] :: R).
    destruct a as [|x a].
    + change ([] ++ strip new_use_case :: [] :: [] :: R)
        with (strip new_use_case :: [] :: [] :: R).
      rewrite join_unlines. eexists. reflexivity.
    + change ((x :: a) ++ strip new_use_case :: [] :: [] :: R)
        with (x :: a ++ strip new_use_case :: [] :: [] :: R).
      rewrite join_unlines. eexists. reflexivity.
Qed.

(** A well-numbered document has its sections 1..7 before section 8. *)
Lemma update_specs_prefix_numbers content n l1 h l2 :
  split content = l1 ++ h :: l2 -> is_section_8 h = true ->
  numbers content = upto n ->
  map fst (filter_map section_of l1) = upto 7.
Proof.
  intros Hs Hh Hn. destruct (is_section_8_inv h Hh) as [title Ht].
  unfold numbers, sections in Hn.
  rewrite Hs, filter_map_app, map_app in Hn. simpl in Hn.
  rewrite Ht in Hn. simpl in Hn. symmetry in Hn.
  now destruct (upto_split n _ 8 _ Hn) as (Ha & _).
Qed.

(** *** The script and its file *)

Lemma main_run w :
  main w =
    (Script.mkWorld (update_specs (Script.file w))
       (Script.stdout w ++
        ["Successfully updated use-case-specifications.md"%string]),
     Script.Done tt).
Proof. reflexivity. Qed.

(** *** Lines that are not headings *)

(** What is already in [new_lines] plays no part in the loop. *)
Lemma run_frame l : forall st pre,
  fold_left step l
    (mkState (pre ++ new_lines st) (inserted st) (current_section_num st)) =
  let r := fold_left step l st in
  mkState (pre ++ new_lines r) (inserted r) (current_section_num r).
Proof.
  induction l as [|x l IH]; intros st pre; [reflexivity|].
  cbn [fold_left].
  assert (Hstep :
    step (mkState (pre ++ new_lines st) (inserted st) (current_section_num st))
      x =
    mkState (pre ++ new_lines (step st x)) (inserted (step st x))
      (current_section_num (step st x))).
  { unfold step, append.
    destruct (section_pattern x) as [[g1 title]|];
      cbn [new_lines inserted current_section_num].
    - destruct ((int g1 =? 8) && negb (inserted st));
        cbn [new_lines inserted current_section_num].
      + now rewrite <- !app_assoc.
      + destruct (inserted st); cbn [new_lines inserted current_section_num];
          now rewrite <- !app_assoc.
    - now rewrite <- app_assoc. }
  rewrite Hstep. apply IH.
Qed.

(** A line that is not a heading is copied and leaves the variables of the
    loop as they were. *)
Lemma loop_other_line l1 line l2 :
  section_pattern line = None ->
  exists o2,
    new_lines (loop (l1 ++ l2)) = new_lines (loop l1) ++ o2 /\
    new_lines (loop (l1 ++ line :: l2)) = new_lines (loop l1) ++ line :: o2.
Proof.
  intros Hline. unfold loop. rewrite !fold_left_app. cbn [fold_left].
  set (st1 := fold_left step l1 init).
  set (st0 := mkState [] (inserted st1) (current_section_num st1)).
  exists (new_lines (fold_left step l2 st0)).
  assert (Hst1 : st1 = mkState (new_lines st1 ++ new_lines st0)
                         (inserted st0) (current_section_num st0)).
  { unfold st0. destruct st1; cbn [new_lines inserted current_section_num].
    now rewrite app_nil_r. }
  split.
  - rewrite Hst1 at 1. rewrite run_frame. reflexivity.
  - assert (Hstep : step st1 line =
      mkState ((new_lines st1 ++ [line]) ++ new_lines st0)
        (inserted st0) (current_section_num st0)).
    { unfold step. rewrite Hline. unfold append, st0.
      cbn [new_lines inserted current_section_num].
      now rewrite app_nil_r. }
    rewrite Hstep, run_frame. cbn [new_lines]. now rewrite <- app_assoc.
Qed.

End WithUnicode.

End UpdateSpecsFacts.

(** ** The search and the substitution of update_specs_employer.py *)

Module EmployerFacts.
Import Employer.

Section WithUnicode.
Context {U : Unicode}.

Lemma marker_no_nl : no_nl (T "## 18.").
Proof. unfold no_nl. cbv. intuition discriminate. Qed.

Lemma starts_18_line l s :
  strip_prefix (T "## 18.") (l ++ newline :: s) = None <-> starts_18 l = false.
Proof.
  unfold starts_18. rewrite strip_prefix_line by apply marker_no_nl.
  destruct (strip_prefix (T "## 18.") l); simpl; split; intros H;
    (discriminate || reflexivity).
Qed.

(** *** [re.search] *)

Lemma search_from_true s :
  search_from true s =
    match strip_prefix (T "## 18.") s with
    | Some _ => Some 0%nat
    | None => search_from false s
    end.
Proof.
  destruct s as [|c s]; cbn [search_from];
    destruct (strip_prefix (T "## 18.") _); reflexivity.
Qed.

Lemma search_from_false_line l s :
  no_nl l ->
  search_from false (l ++ newline :: s) =
    option_map (fun i => (List.length l + 1 + i)%nat) (search_from true s).
Proof.
  induction l as [|c l IH]; intros Hl.
  - change (search_from false ([] ++ newline :: s))
      with (option_map S (search_from true s)).
    destruct (search_from true s); reflexivity.
  - assert (Hc : is_newline c = false).
    { apply is_newline_false. intros ->. apply Hl. now left. }
    change (search_from false ((c :: l) ++ newline :: s))
      with (option_map S (search_from (is_newline c) (l ++ newline :: s))).
    rewrite Hc, IH by (intros Hin; apply Hl; now right).
    destruct (search_from true s); reflexivity.
Qed.

Lemma search_from_false_last l :
  no_nl l -> search_from false l = None.
Proof.
  induction l as [|c l IH]; intros Hl; [reflexivity|].
  assert (Hc : is_newline c = false).
  { apply is_newline_false. intros ->. apply Hl. now left. }
  change (search_from false (c :: l))
    with (option_map S (search_from (is_newline c) l)).
  rewrite Hc, IH by (intros Hin; apply Hl; now right). reflexivity.
Qed.

(** Lines that do not begin with the marker are passed. *)
Lemma search_skip_lines l1 t :
  Forall no_nl l1 -> Forall (fun l => starts_18 l = false) l1 ->
  search_from true (unlines l1 ++ t) =
    option_map (fun i => (List.length (unlines l1) + i)%nat)
      (search_from true t).
Proof.
  intros Hnl. revert t. induction Hnl as [|l l1 Hl _ IH]; intros t H18.
  - simpl. destruct (search_from true t); reflexivity.
  - apply Forall_cons_iff in H18 as [Hl18 H18].
    rewrite unlines_app_assoc, search_from_true.
    rewrite (proj2 (starts_18_line l _) Hl18).
    rewrite search_from_false_line, IH by assumption.
    rewrite unlines_cons, length_app. simpl.
    destruct (search_from true t); simpl; [f_equal; lia|reflexivity].
Qed.

Lemma search_found l1 h l2 :
  Forall no_nl l1 -> Forall (fun l => starts_18 l = false) l1 ->
  starts_18 h = true ->
  search (unlines l1 ++ join (h :: l2)) = Some (List.length (unlines l1)).
Proof.
  intros Hnl H18 Hh. unfold search. rewrite search_skip_lines by assumption.
  rewrite search_from_true.
  unfold starts_18 in Hh.
  destruct (strip_prefix (T "## 18.") h) as [r|] eqn:E; [|discriminate].
  assert (exists r', strip_prefix (T "## 18.") (join (h :: l2)) = Some r')
    as [r' ->].
  { destruct l2 as [|l l2].
    - exists r. exact E.
    - rewrite join_cons by discriminate. eexists.
      apply strip_prefix_weaken. exact E. }
  simpl. f_equal. lia.
Qed.

Lemma search_not_found lines :
  Forall no_nl lines -> Forall (fun l => starts_18 l = false) lines ->
  lines <> [] ->
  search (join lines) = None.
Proof.
  intros Hnl H18 Hne.
  destruct (exists_last Hne) as (l1 & l & ->).
  apply Forall_app in Hnl. destruct Hnl as [Hnl1 Hnl2].
  apply Forall_app in H18. destruct H18 as [H1 H2].
  inversion Hnl2; subst. inversion H2; subst.
  rewrite join_unlines. unfold search.
  rewrite search_skip_lines by assumption.
  simpl join. rewrite search_from_true.
  unfold starts_18 in *. destruct (strip_prefix _ l); [discriminate|].
  now rewrite search_from_false_last.
Qed.

Lemma first_starts_18 lines :
  Forall (fun l => starts_18 l = false) lines \/
  exists l1 h l2,
    lines = l1 ++ h :: l2 /\
    Forall (fun l => starts_18 l = false) l1 /\ starts_18 h = true.
Proof.
  induction lines as [|l lines IH]; [left; constructor|].
  destruct (starts_18 l) eqn:E.
  - right. exists [], l, lines.
    split; [reflexivity|]. split; [constructor|assumption].
  - destruct IH as [IH|(l1 & h & l2 & -> & Hall & Hh)].
    + left. now constructor.
    + right. exists (l :: l1), h, l2.
      split; [reflexivity|]. split; [now constructor|assumption].
Qed.

(** *** The pattern of [re.sub] *)

Lemma is_digit_newline : is_digit newline = false.
Proof. reflexivity. Qed.

Lemma header_pattern_Some s g1 rest :
  header_pattern s = Some (g1, rest) ->
  s = T "## " ++ g1 ++ T "." ++ rest /\
  g1 <> [] /\ Forall (fun c => is_digit c = true) g1.
Proof.
  unfold header_pattern. intros H.
  destruct (strip_prefix (T "## ") s) as [r|] eqn:E1; [|discriminate].
  pose proof (span_app is_digit r) as Happ.
  pose proof (span_fst_all is_digit r) as Hall.
  destruct (span is_digit r) as [[|d ds] r1]; [discriminate|].
  destruct (strip_prefix (T ".") r1) as [r2|] eqn:E2; [|discriminate].
  simpl in Happ, Hall. inversion H; subst g1 rest.
  apply strip_prefix_Some in E1. apply strip_prefix_Some in E2.
  rewrite E1, <- Happ, E2.
  split; [reflexivity|]. split; [discriminate|assumption].
Qed.

Lemma header_pattern_line l s :
  header_pattern (l ++ newline :: s) =
    match header_pattern l with
    | Some (g1, rest) => Some (g1, rest ++ newline :: s)
    | None => None
    end.
Proof.
  unfold header_pattern.
  rewrite strip_prefix_line by (unfold no_nl; cbv; intuition discriminate).
  destruct (strip_prefix (T "## ") l) as [r|]; [|reflexivity].
  cbn [option_map].
  rewrite span_app_stop by apply is_digit_newline.
  destruct (span is_digit r) as [[|d ds] r1]; [reflexivity|].
  cbn [fst snd].
  rewrite strip_prefix_line by (unfold no_nl; cbv; intuition discriminate).
  destruct (strip_prefix (T ".") r1); reflexivity.
Qed.

Lemma header_pattern_replace g1 rest :
  header_pattern (replace_header g1 ++ rest) = Some (str (int g1 + 1), rest).
Proof.
  unfold header_pattern, replace_header.
  rewrite <- !app_assoc, strip_prefix_app.
  rewrite span_str by reflexivity.
  pose proof (str_not_nil (int g1 + 1)) as Hs.
  destruct (str (int g1 + 1)) as [|d ds]; [congruence|].
  now rewrite strip_prefix_app.
Qed.

Lemma number_of_bump_line l :
  number_of (bump_line l) = option_map (fun n => n + 1) (number_of l).
Proof.
  unfold number_of, bump_line.
  destruct (header_pattern l) as [[g1 rest]|] eqn:E.
  - rewrite header_pattern_replace. simpl. now rewrite int_str.
  - now rewrite E.
Qed.

(** *** [re.sub] *)

Lemma sub_from_skip a b :
  sub_from (List.length a) false (a ++ b) = sub_from 0 false b.
Proof. induction a as [|c a IH]; [reflexivity|exact IH]. Qed.

Lemma sub_from_false_cons c s :
  sub_from 0 false (c :: s) = c :: sub_from 0 (is_newline c) s.
Proof. reflexivity. Qed.

Lemma sub_from_false_line l s :
  no_nl l ->
  sub_from 0 false (l ++ newline :: s) = l ++ newline :: sub_from 0 true s.
Proof.
  induction l as [|c l IH]; intros Hl; [reflexivity|].
  assert (Hc : is_newline c = false).
  { apply is_newline_false. intros ->. apply Hl. now left. }
  change ((c :: l) ++ newline :: s) with (c :: (l ++ newline :: s)).
  rewrite sub_from_false_cons, Hc, IH by (intros Hin; apply Hl; now right).
  reflexivity.
Qed.

Lemma sub_from_false_last l : no_nl l -> sub_from 0 false l = l.
Proof.
  induction l as [|c l IH]; intros Hl; [reflexivity|].
  assert (Hc : is_newline c = false).
  { apply is_newline_false. intros ->. apply Hl. now left. }
  rewrite sub_from_false_cons, Hc, IH by (intros Hin; apply Hl; now right).
  reflexivity.
Qed.

(** At the start of a line: one match, and on after it; or none. *)
Lemma sub_from_true s :
  sub_from 0 true s =
    match header_pattern s with
    | Some (g1, rest) => replace_header g1 ++ sub_from 0 false rest
    | None => sub_from 0 false s
    end.
Proof.
  destruct s as [|c s]; [reflexivity|].
  cbn [sub_from].
  destruct (header_pattern (c :: s)) as [[g1 rest]|] eqn:E; [|reflexivity].
  f_equal. apply header_pattern_Some in E. destruct E as (E & _ & _).
  assert (E' : s = (T "# " ++ g1 ++ T ".") ++ rest).
  { rewrite <- !app_assoc. now inversion E. }
  rewrite E'. set (m := T "# " ++ g1 ++ T ".").
  replace (List.length (c :: m ++ rest) - List.length rest - 1)%nat
    with (List.length m).
  - apply sub_from_skip.
  - cbn [List.length]. rewrite length_app. lia.
Qed.

Lemma header_rest_no_nl l g1 rest :
  header_pattern l = Some (g1, rest) -> no_nl l -> no_nl rest.
Proof.
  intros H Hl Hin. apply header_pattern_Some in H. destruct H as (-> & _).
  apply Hl. rewrite !in_app_iff. auto.
Qed.

Lemma sub_line l s :
  no_nl l ->
  sub_from 0 true (l ++ newline :: s) =
    bump_line l ++ newline :: sub_from 0 true s.
Proof.
  intros Hl. rewrite sub_from_true, header_pattern_line. unfold bump_line.
  destruct (header_pattern l) as [[g1 rest]|] eqn:E.
  - rewrite sub_from_false_line by (eapply header_rest_no_nl; eauto).
    now rewrite <- app_assoc.
  - now apply sub_from_false_line.
Qed.

Lemma sub_last l : no_nl l -> sub_from 0 true l = bump_line l.
Proof.
  intros Hl. rewrite sub_from_true. unfold bump_line.
  destruct (header_pattern l) as [[g1 rest]|] eqn:E.
  - now rewrite sub_from_false_last by (eapply header_rest_no_nl; eauto).
  - now apply sub_from_false_last.
Qed.

(** [re.sub] works line by line. *)
Lemma sub_join lines :
  Forall no_nl lines -> sub (join lines) = join (map bump_line lines).
Proof.
  unfold sub. induction 1 as [|l lines Hl Hls IH]; [reflexivity|].
  destruct lines as [|l' lines].
  - simpl. now apply sub_last.
  - rewrite join_cons by discriminate. rewrite sub_line by assumption.
    rewrite IH. symmetry. apply join_cons. discriminate.
Qed.

Lemma bump_line_no_nl l : no_nl l -> no_nl (bump_line l).
Proof.
  intros Hl. unfold bump_line.
  destruct (header_pattern l) as [[g1 rest]|] eqn:E; [|assumption].
  intros Hin. unfold replace_header in Hin. rewrite !in_app_iff in Hin.
  destruct Hin as [[Hin|[Hin|Hin]]|Hin].
  - revert Hin. cbv. intuition discriminate.
  - pose proof (str_digits (int g1 + 1)) as Hd. rewrite Forall_forall in Hd.
    apply Hd in Hin. discriminate.
  - revert Hin. cbv. intuition discriminate.
  - eapply header_rest_no_nl; eauto.
Qed.

(** *** The script *)

(** Without a line that begins with the marker, the script stops. *)
Lemma employer_not_found content :
  Forall (fun l => starts_18 l = false) (split content) ->
  update_specs_employer content = None.
Proof.
  intros H. unfold update_specs_employer.
  rewrite <- (join_split content) at 1.
  rewrite search_not_found;
    [reflexivity|apply split_no_nl|assumption|apply split_not_nil].
Qed.

(** With one, the new section goes before the first such line and every
    line from there on goes through [bump_line]. *)
Lemma employer_found content l1 h l2 :
  split content = l1 ++ h :: l2 ->
  Forall (fun l => starts_18 l = false) l1 ->
  starts_18 h = true ->
  update_specs_employer content =
    Some (unlines l1 ++ new_section ++ join (map bump_line (h :: l2))).
Proof.
  intros Hs H18 Hh.
  pose proof (split_no_nl content) as Hnl. rewrite Hs in Hnl.
  apply Forall_app in Hnl. destruct Hnl as [Hnl1 Hnl2].
  unfold update_specs_employer.
  rewrite (split_cut content l1 h l2 Hs).
  rewrite search_found by assumption.
  rewrite firstn_app, firstn_all, Nat.sub_diag, firstn_O, app_nil_r.
  rewrite skipn_app, skipn_all, Nat.sub_diag, skipn_O, app_nil_l.
  now rewrite sub_join.
Qed.

Lemma starts_18_number h : starts_18 h = true -> number_of h = Some 18.
Proof.
  unfold starts_18. intros H.
  destruct (strip_prefix (T "## 18.") h) as [r|] eqn:E; [|discriminate].
  apply strip_prefix_Some in E. subst h. reflexivity.
Qed.

Lemma new_section_ends :
  new_section = removelast new_section ++ [newline].
Proof. vm_compute. reflexivity. Qed.

Lemma new_section_numbers :
  filter_map number_of (split (removelast new_section)) = [18].
Proof. vm_compute. reflexivity. Qed.

Lemma bump_lines_numbers ls :
  filter_map number_of (map bump_line ls) =
    map (fun n => n + 1) (filter_map number_of ls).
Proof.
  induction ls as [|l ls IH]; [reflexivity|].
  simpl. rewrite number_of_bump_line, IH.
  destruct (number_of l); reflexivity.
Qed.

Lemma employer_found_numbers l1 h l2 :
  Forall no_nl (l1 ++ h :: l2) ->
  numbers (unlines l1 ++ new_section ++ join (map bump_line (h :: l2))) =
    filter_map number_of l1 ++
    18 :: map (fun n => n + 1) (filter_map number_of (h :: l2)).
Proof.
  intros Hnl. apply Forall_app in Hnl. destruct Hnl as [Hnl1 Hnl2].
  unfold numbers. rewrite split_unlines by assumption.
  rewrite new_section_ends, split_app_line.
  rewrite split_join by discriminate.
  rewrite flat_map_split_lines.
  - rewrite !filter_map_app, new_section_numbers, bump_lines_numbers.
    reflexivity.
  - rewrite Forall_forall in *. intros l Hin. apply in_map_iff in Hin.
    destruct Hin as (l' & <- & Hin). apply bump_line_no_nl. auto.
Qed.

(** With sections numbered 1..n, section 18 among them, the result has
    the sections 1..n+1. *)
Lemma employer_numbers content out n :
  numbers content = upto n ->
  update_specs_employer content = Some out ->
  numbers out = upto (n + 1).
Proof.
  intros Hn Hout.
  destruct (first_starts_18 (split content))
    as [Hno|(l1 & h & l2 & Hs & Hall & Hh)].
  - rewrite employer_not_found in Hout by assumption. discriminate.
  - rewrite (employer_found content l1 h l2) in Hout by assumption.
    apply (f_equal (fun o => match o with Some x => x | None => out end))
      in Hout. cbv beta iota in Hout. subst out.
    pose proof (split_no_nl content) as Hnl. rewrite Hs in Hnl.
    rewrite employer_found_numbers by assumption.
    unfold numbers in Hn. rewrite Hs, filter_map_app in Hn.
    simpl in Hn. rewrite (starts_18_number h Hh) in Hn. simpl in Hn.
    symmetry in Hn.
    destruct (upto_split n _ 18 _ Hn) as (Ha & _ & Hb).
    rewrite Ha in Hn. apply upto_tail in Hn; [|lia].
    simpl filter_map. rewrite (starts_18_number h Hh). simpl app.
    rewrite Ha.
    change ([18] ++ filter_map number_of l2)
      with (N.of_nat 18 :: filter_map number_of l2).
    rewrite Hn, seq_succ.
    replace (n + 1)%nat with (17 + S (n - 17))%nat by lia.
    rewrite upto_app. reflexivity.
Qed.

(** What the script has done when it has not stopped. *)
Lemma employer_inv content out :
  update_specs_employer content = Some out ->
  exists l1 h l2,
    split content = l1 ++ h :: l2 /\
    Forall (fun l => starts_18 l = false) l1 /\ starts_18 h = true /\
    out = unlines l1 ++ new_section ++ join (map bump_line (h :: l2)).
Proof.
  intros Hout.
  destruct (first_starts_18 (split content))
    as [Hno|(l1 & h & l2 & Hs & Hall & Hh)].
  - rewrite employer_not_found in Hout by assumption. discriminate.
  - exists l1, h, l2. repeat (split; [assumption|]).
    rewrite (employer_found content l1 h l2) in Hout by assumption.
    symmetry. now apply Some_inj.
Qed.

Lemma employer_None_iff content :
  update_specs_employer content = None <->
  Forall (fun l => starts_18 l = false) (split content).
Proof.
  split; [|apply employer_not_found].
  intros Hnone.
  destruct (first_starts_18 (split content))
    as [Hno|(l1 & h & l2 & Hs & Hall & Hh)]; [assumption|].
  rewrite (employer_found content l1 h l2) in Hnone by assumption.
  discriminate.
Qed.

(** The lines before the first marker are written as they were. *)
Lemma employer_prefix content out l1 h l2 :
  split content = l1 ++ h :: l2 ->
  Forall (fun l => starts_18 l = false) l1 ->
  update_specs_employer content = Some out ->
  exists rest, out = unlines l1 ++ rest.
Proof.
  intros Hs Hall Hout.
  destruct (first_starts_18 (h :: l2)) as [Hno|(a & h' & b & E & Ha & Hh')].
  - rewrite employer_not_found in Hout; [discriminate|].
    rewrite Hs. apply Forall_app. now split.
  - rewrite E, app_assoc in Hs.
    rewrite (employer_found content (l1 ++ a) h' b Hs) in Hout
      by (try apply Forall_app; auto).
    apply Some_inj in Hout. subst out.
    rewrite unlines_app, <- app_assoc. eexists. reflexivity.
Qed.

(** A well-numbered document has its sections 1..17 before the marker. *)
Lemma employer_prefix_numbers content n l1 h l2 :
  split content = l1 ++ h :: l2 -> starts_18 h = true ->
  numbers content = upto n ->
  filter_map number_of l1 = upto 17.
Proof.
  intros Hs Hh Hn. unfold numbers in Hn.
  rewrite Hs, filter_map_app in Hn. simpl in Hn.
  rewrite (starts_18_number h Hh) in Hn. simpl in Hn. symmetry in Hn.
  now destruct (upto_split n _ 18 _ Hn) as (Ha & _).
Qed.

(** *** The script and its file *)

Lemma main_not_found w :
  update_specs_employer (Script.file w) = None ->
  main w =
    (Script.mkWorld (Script.file w)
       (Script.stdout w ++ ["Could not find Section 18."%string]),
     Script.Exit 1).
Proof. intros H. unfold main, Script.bind, Script.read_file. now rewrite H. Qed.

Lemma main_found w new_content :
  update_specs_employer (Script.file w) = Some new_content ->
  main w =
    (Script.mkWorld new_content
       (Script.stdout w ++
        ["Successfully inserted Employer Onboarding and renumbered sections."
         %string]),
     Script.Done tt).
Proof. intros H. unfold main, Script.bind, Script.read_file. now rewrite H. Qed.

Lemma header_pattern_make ds rest :
  ds <> [] -> Forall (fun c => is_digit c = true) ds ->
  header_pattern (T "## " ++ ds ++ T "." ++ rest) = Some (ds, rest).
Proof.
  intros Hne Hd. unfold header_pattern. rewrite strip_prefix_app.
  rewrite span_exact by (assumption || reflexivity).
  destruct ds as [|d ds]; [congruence|]. now rewrite strip_prefix_app.
Qed.

(** *** Lines that are not headings *)

Lemma new_section_unlines : new_section = unlines new_section_lines.
Proof.
  unfold new_section_lines. rewrite unlines_split. apply new_section_ends.
Qed.

Lemma header_pattern_None_starts_18 line :
  header_pattern line = None -> starts_18 line = false.
Proof.
  intros H. destruct (starts_18 line) eqn:E; [|reflexivity].
  apply starts_18_number in E. unfold number_of in E.
  rewrite H in E. discriminate.
Qed.

(** The script on a document given by its lines. *)
Lemma employer_found_lines l1 h l2 :
  Forall no_nl (l1 ++ h :: l2) ->
  Forall (fun l => starts_18 l = false) l1 ->
  starts_18 h = true ->
  update_specs_employer (join (l1 ++ h :: l2)) =
    Some (join ((l1 ++ new_section_lines) ++ map bump_line (h :: l2))).
Proof.
  intros Hnl Hall Hh.
  rewrite (employer_found _ l1 h l2); try assumption.
  - f_equal. rewrite new_section_unlines.
    cbn [map]. rewrite join_unlines, unlines_app, <- app_assoc. reflexivity.
  - apply split_join_lines; [destruct l1; discriminate|assumption].
Qed.

Lemma employer_other_line l1 line l2 out :
  Forall no_nl (l1 ++ line :: l2) ->
  header_pattern line = None ->
  update_specs_employer (join (l1 ++ line :: l2)) = Some out ->
  exists o1 o2,
    out = join (o1 ++ line :: o2) /\
    update_specs_employer (join (l1 ++ l2)) = Some (join (o1 ++ o2)).
Proof.
  intros Hnl Hline Hout.
  assert (Hbump : bump_line line = line).
  { unfold bump_line. now rewrite Hline. }
  apply header_pattern_None_starts_18 in Hline.
  apply Forall_app in Hnl. destruct Hnl as [Hnl1 Hnl2].
  apply Forall_cons_iff in Hnl2. destruct Hnl2 as [Hnll Hnl2].
  destruct (first_starts_18 l1) as [Hno1|(a & h & b & -> & Ha & Hh)].
  - destruct (first_starts_18 l2) as [Hno2|(a & h & b & -> & Ha & Hh)].
    + rewrite employer_not_found in Hout; [discriminate|].
      rewrite split_join_lines.
      * apply Forall_app. split; [assumption|]. now constructor.
      * destruct l1; discriminate.
      * apply Forall_app. split; [assumption|]. now constructor.
    + exists l1, (a ++ new_section_lines ++ map bump_line (h :: b)).
      apply Forall_app in Hnl2. destruct Hnl2 as [Hnla Hnlb].
      split.
      * change (l1 ++ line :: a ++ h :: b)
          with (l1 ++ (line :: a) ++ h :: b) in Hout.
        rewrite app_assoc in Hout.
        rewrite employer_found_lines in Hout.
        -- apply Some_inj in Hout. subst out.
           now rewrite <- !app_assoc.
        -- rewrite <- app_assoc. apply Forall_app. split; [assumption|].
           constructor; [assumption|]. apply Forall_app. now split.
        -- apply Forall_app. split; [assumption|]. now constructor.
        -- assumption.
      * rewrite app_assoc. rewrite employer_found_lines.
        -- now rewrite <- !app_assoc.
        -- rewrite <- app_assoc. apply Forall_app. split; [assumption|].
           apply Forall_app. now split.
        -- apply Forall_app. now split.
        -- assumption.
  - exists ((a ++ new_section_lines) ++ map bump_line (h :: b)),
      (map bump_line l2).
    apply Forall_app in Hnl1. destruct Hnl1 as [Hnla Hnlb].
    split.
    + rewrite <- app_assoc in Hout.
      change ((h :: b) ++ line :: l2) with (h :: b ++ line :: l2) in Hout.
      rewrite employer_found_lines in Hout.
      * apply Some_inj in Hout. subst out.
        change (h :: b ++ line :: l2) with ((h :: b) ++ line :: l2).
        rewrite map_app. cbn [map]. rewrite Hbump.
        now rewrite <- !app_assoc.
      * apply Forall_app. split; [assumption|].
        apply Forall_cons_iff in Hnlb. destruct Hnlb as [Hh' Hb'].
        constructor; [assumption|]. apply Forall_app. split; [assumption|].
        now constructor.
      * assumption.
      * assumption.
    + rewrite <- app_assoc.
      change ((h :: b) ++ l2) with (h :: b ++ l2).
      rewrite employer_found_lines.
      * change (h :: b ++ l2) with ((h :: b) ++ l2).
        rewrite map_app. now rewrite <- !app_assoc.
      * apply Forall_app. split; [assumption|].
        apply Forall_cons_iff in Hnlb. destruct Hnlb as [Hh' Hb'].
        constructor; [assumption|]. apply Forall_app. now split.
      * assumption.
      * assumption.
Qed.

End WithUnicode.

End EmployerFacts.


(** ** Further facts used below *)

Section MoreFacts.
Context {U : Unicode}.

Lemma employer_Some_of_marker content :
  Exists (fun l => Employer.starts_18 l = true) (split content) ->
  exists out, Employer.update_specs_employer content = Some out.
Proof.
  intros Hex.
  destruct (Employer.update_specs_employer content) as [out|] eqn:E;
    [now exists out|].
  apply EmployerFacts.employer_None_iff in E.
  apply Exists_exists in Hex. destruct Hex as (l & Hin & Hl).
  rewrite Forall_forall in E. apply E in Hin. congruence.
Qed.

Lemma marker_of_employer_Some content out :
  Employer.update_specs_employer content = Some out ->
  Exists (fun l => Employer.starts_18 l = true) (split content).
Proof.
  intros Hout. apply EmployerFacts.employer_inv in Hout.
  destruct Hout as (l1 & h & l2 & Hs & _ & Hh & _).
  rewrite Hs. apply Exists_app. right. now constructor.
Qed.

(** A document numbered 1..N, N < 18, has no line beginning [## 18.] *)
Lemma employer_below_18 content n :
  Employer.numbers content = upto n -> (n < 18)%nat ->
  Forall (fun l => Employer.starts_18 l = false) (split content).
Proof.
  intros Hn Hlt.
  destruct (EmployerFacts.first_starts_18 (split content))
    as [Hno|(l1 & h & l2 & Hs & _ & Hh)]; [assumption|].
  exfalso.
  assert (Hin : In 18 (Employer.numbers content)).
  { unfold Employer.numbers. rewrite Hs, filter_map_app.
    apply in_or_app. right. simpl.
    rewrite (EmployerFacts.starts_18_number h Hh). now left. }
  rewrite Hn in Hin. apply upto_In_inv in Hin.
  destruct Hin as (k & Hk & Hle). lia.
Qed.

Lemma no_section_8_below_8 content n :
  UpdateSpecs.numbers content = upto n -> (n < 8)%nat ->
  Forall (fun l => UpdateSpecs.is_section_8 l = false) (split content).
Proof.
  intros Hn Hlt.
  destruct (UpdateSpecsFacts.first_section_8 (split content))
    as [Hno|(l1 & h & l2 & Hs & _ & Hh)]; [assumption|].
  exfalso.
  pose proof (UpdateSpecsFacts.numbers_section_8 content l1 h l2 Hs Hh) as Hin.
  rewrite Hn in Hin. apply upto_In_inv in Hin.
  destruct Hin as (k & Hk & Hle). lia.
Qed.

(** The lines appended by the loop when there is a section 8. *)
Lemma loop_insert l1 h l2 :
  Forall (fun l => UpdateSpecs.is_section_8 l = false) l1 ->
  UpdateSpecs.is_section_8 h = true ->
  UpdateSpecs.new_lines (UpdateSpecs.loop (l1 ++ h :: l2)) =
    l1 ++ UpdateSpecs.block ++ UpdateSpecs.renumber 9 (h :: l2).
Proof.
  intros Hall Hh. unfold UpdateSpecs.loop. rewrite fold_left_app.
  rewrite (UpdateSpecsFacts.run_copy l1) by (reflexivity || assumption).
  simpl fold_left.
  destruct (UpdateSpecsFacts.is_section_8_inv h Hh) as [title Ht].
  rewrite (UpdateSpecsFacts.step_insert _ h 8 title)
    by (reflexivity || assumption).
  rewrite UpdateSpecsFacts.run_renumber by reflexivity.
  simpl UpdateSpecs.new_lines. simpl UpdateSpecs.renumber. rewrite Ht.
  rewrite <- !app_assoc. reflexivity.
Qed.

Lemma loop_copy lines :
  Forall (fun l => UpdateSpecs.is_section_8 l = false) lines ->
  UpdateSpecs.new_lines (UpdateSpecs.loop lines) = lines.
Proof.
  intros H. unfold UpdateSpecs.loop.
  now rewrite UpdateSpecsFacts.run_copy by (reflexivity || assumption).
Qed.

(** Renumbering goes on after a list of lines with the counter increased
    by the number of its headings. *)
Lemma renumber_app x : forall c y,
  UpdateSpecs.renumber c (x ++ y) =
    UpdateSpecs.renumber c x ++
    UpdateSpecs.renumber
      (c + N.of_nat (List.length (filter_map UpdateSpecs.section_of x))) y.
Proof.
  induction x as [|l x IH]; intros c y.
  - simpl. now rewrite N.add_0_r.
  - simpl. destruct (UpdateSpecs.section_of l) as [[num title]|]; simpl.
    + rewrite IH. do 3 f_equal. lia.
    + now rewrite IH.
Qed.

End MoreFacts.

(** * The claims of the specification

    The counterexamples and the witnesses are evaluated with the tables
    of Unicode 14.0. *)

Import Samples.

#[local] Existing Instance unicode_14.

(** ** C1: the result has the sections 1..N+1 *)

(** C1 as stated fails at the append position N+1, which the claim counts
    as valid.  Seven sections and target 8: [docs/update_specs.py] writes
    seven sections back.  Seventeen sections and target 18:
    [update_specs_employer.py] stops without a result. *)
Lemma C1_counterexample :
  UpdateSpecs.numbers (numbered 7) = upto 7 /\
  (1 <= 8 <= 7 + 1)%nat /\
  UpdateSpecs.numbers (UpdateSpecs.update_specs (numbered 7)) <> upto (7 + 1) /\
  Employer.numbers (numbered 17) = upto 17 /\
  (1 <= 18 <= 17 + 1)%nat /\
  Employer.update_specs_employer (numbered 17) = None.
Proof.
  split; [vm_compute; reflexivity|]. split; [lia|].
  split; [intros H; vm_compute in H; discriminate H|].
  split; [vm_compute; reflexivity|]. split; [lia|].
  vm_compute; reflexivity.
Qed.

(** C1, amended: the sections of a document are the lines that the
    pattern of the script matches, [^## (\d+)\. (.+)] for
    [docs/update_specs.py] and [^## (\d+)\.] for
    [update_specs_employer.py].  For every document whose sections are
    numbered 1..N, when the target of the script is one of them (N >= 8
    for [docs/update_specs.py]; a line beginning with [## 18.] for
    [update_specs_employer.py]), the script has a result and it has
    exactly the sections 1..N+1, in order. *)
Theorem C1_numbering_after_insertion {U : Unicode} :
  (forall content n,
     UpdateSpecs.numbers content = upto n -> (8 <= n)%nat ->
     UpdateSpecs.numbers (UpdateSpecs.update_specs content) = upto (n + 1)) /\
  (forall content n,
     Employer.numbers content = upto n ->
     Exists (fun l => Employer.starts_18 l = true) (split content) ->
     exists out,
       Employer.update_specs_employer content = Some out /\
       Employer.numbers out = upto (n + 1)).
Proof.
  split.
  - apply UpdateSpecsFacts.update_specs_numbers.
  - intros content n Hn Hex.
    destruct (employer_Some_of_marker content Hex) as [out Hout].
    exists out. split; [exact Hout|].
    now apply (EmployerFacts.employer_numbers content out n).
Qed.

Lemma C1_witness :
  UpdateSpecs.numbers (UpdateSpecs.update_specs (numbered 9)) = upto (9 + 1) /\
  exists out,
    Employer.update_specs_employer (numbered 19) = Some out /\
    Employer.numbers out = upto (19 + 1).
Proof.
  split.
  - apply (proj1 C1_numbering_after_insertion (numbered 9) 9%nat);
      [vm_compute; reflexivity|lia].
  - apply (proj2 C1_numbering_after_insertion (numbered 19) 19%nat).
    + vm_compute; reflexivity.
    + apply Exists_exists. exists (T "## 18. Use case").
      split; [apply mem_true; vm_compute; reflexivity|reflexivity].
Defined.

(** ** C2: errors *)

(** C2 as stated fails.  A document numbered 1, 2, 4 is taken by
    [docs/update_specs.py], which leaves with status 0 and has written the
    text back as it was; numbered 1, 2, 4, 18 it is taken by
    [update_specs_employer.py], which leaves with status 0 and has written
    1, 2, 4, 18, 19.  With six sections, where 8 is N+2,
    [docs/update_specs.py] leaves with status 0 as well. *)
Lemma C2_counterexample :
  (UpdateSpecs.numbers doc_1_2_4 = [1; 2; 4] /\
   Script.status (UpdateSpecs.main (Script.mkWorld doc_1_2_4 [])) = 0%nat /\
   Script.file (fst (UpdateSpecs.main (Script.mkWorld doc_1_2_4 [])))
     = doc_1_2_4) /\
  (Employer.numbers doc_1_2_4_18 = [1; 2; 4; 18] /\
   Script.status (Employer.main (Script.mkWorld doc_1_2_4_18 [])) = 0%nat /\
   Employer.numbers
     (Script.file (fst (Employer.main (Script.mkWorld doc_1_2_4_18 []))))
     = [1; 2; 4; 18; 19]) /\
  (UpdateSpecs.numbers (numbered 6) = upto 6 /\
   Script.status (UpdateSpecs.main (Script.mkWorld (numbered 6) [])) = 0%nat).
Proof. repeat split; vm_compute; reflexivity. Qed.

(** C2, amended: neither script has an error for a target out of range or
    for a document that is not numbered 1, 2, 3, ...
    [update_specs_employer.py] has one check: when no line of the
    document begins with [## 18.] it prints "Could not find Section 18.",
    leaves with status 1 and writes nothing; this is the case of every
    document numbered 1..N with N < 18 (of N = 16, where 18 is N+2).  When
    there is such a line the check is passed, whatever the numbers of the
    headings.  [docs/update_specs.py] has no check: when no heading is
    numbered 8 (with the sections 1..N, N < 8, or with 1, 2, 4) it writes
    back the text it has read. *)
Theorem C2_missing_section {U : Unicode} :
  (forall w,
     Forall (fun l => Employer.starts_18 l = false) (split (Script.file w)) ->
     Employer.main w =
       (Script.mkWorld (Script.file w)
          (Script.stdout w ++ ["Could not find Section 18."%string]),
        Script.Exit 1)) /\
  (forall w n,
     Employer.numbers (Script.file w) = upto n -> (n < 18)%nat ->
     Employer.main w =
       (Script.mkWorld (Script.file w)
          (Script.stdout w ++ ["Could not find Section 18."%string]),
        Script.Exit 1)) /\
  (forall content,
     Exists (fun l => Employer.starts_18 l = true) (split content) ->
     exists out, Employer.update_specs_employer content = Some out) /\
  (forall w,
     Forall (fun l => UpdateSpecs.is_section_8 l = false)
       (split (Script.file w)) ->
     UpdateSpecs.update_specs (Script.file w) = Script.file w /\
     Script.file (fst (UpdateSpecs.main w)) = Script.file w) /\
  (forall w n,
     UpdateSpecs.numbers (Script.file w) = upto n -> (n < 8)%nat ->
     UpdateSpecs.update_specs (Script.file w) = Script.file w /\
     Script.file (fst (UpdateSpecs.main w)) = Script.file w).
Proof.
  assert (Hno8 : forall w,
    Forall (fun l => UpdateSpecs.is_section_8 l = false)
      (split (Script.file w)) ->
    UpdateSpecs.update_specs (Script.file w) = Script.file w /\
    Script.file (fst (UpdateSpecs.main w)) = Script.file w).
  { intros w H.
    pose proof (UpdateSpecsFacts.update_specs_no8 _ H) as E.
    split; [exact E|]. rewrite UpdateSpecsFacts.main_run. exact E. }
  split; [|split; [|split; [|split]]].
  - intros w H. apply EmployerFacts.main_not_found.
    now apply EmployerFacts.employer_not_found.
  - intros w n Hn Hlt. apply EmployerFacts.main_not_found.
    apply EmployerFacts.employer_not_found.
    now apply (employer_below_18 _ n).
  - apply employer_Some_of_marker.
  - exact Hno8.
  - intros w n Hn Hlt. apply Hno8. now apply (no_section_8_below_8 _ n).
Qed.

Lemma C2_witness :
  Employer.main (Script.mkWorld doc_plain []) =
    (Script.mkWorld doc_plain ["Could not find Section 18."%string],
     Script.Exit 1) /\
  Employer.main (Script.mkWorld (numbered 16) []) =
    (Script.mkWorld (numbered 16) ["Could not find Section 18."%string],
     Script.Exit 1) /\
  (exists out, Employer.update_specs_employer doc_1_2_4_18 = Some out) /\
  (UpdateSpecs.update_specs doc_1_2_4 = doc_1_2_4 /\
   Script.file (fst (UpdateSpecs.main (Script.mkWorld doc_1_2_4 [])))
     = doc_1_2_4) /\
  (UpdateSpecs.update_specs (numbered 6) = numbered 6 /\
   Script.file (fst (UpdateSpecs.main (Script.mkWorld (numbered 6) [])))
     = numbered 6).
Proof.
  split; [|split; [|split; [|split]]].
  - apply (proj1 C2_missing_section (Script.mkWorld doc_plain [])).
    apply Forall_false_forallb. vm_compute; reflexivity.
  - apply (proj1 (proj2 C2_missing_section)
             (Script.mkWorld (numbered 16) []) 16%nat).
    + vm_compute; reflexivity.
    + lia.
  - apply (proj1 (proj2 (proj2 C2_missing_section)) doc_1_2_4_18).
    apply Exists_exists. exists (T "## 18. Create Job Post").
    split; [apply mem_true; vm_compute; reflexivity|reflexivity].
  - apply (proj1 (proj2 (proj2 (proj2 C2_missing_section)))
             (Script.mkWorld doc_1_2_4 [])).
    apply Forall_false_forallb. vm_compute; reflexivity.
  - apply (proj2 (proj2 (proj2 (proj2 C2_missing_section)))
             (Script.mkWorld (numbered 6) []) 6%nat).
    + vm_compute; reflexivity.
    + lia.
Defined.

(** ** C3: appending after section 7 *)

(** C3 as stated fails: with the sections 1..7 and target 8 the result
    still has seven sections and none of them is "Onboarding". *)
Lemma C3_counterexample :
  UpdateSpecs.numbers (numbered 7) = upto 7 /\
  List.length (UpdateSpecs.sections (UpdateSpecs.update_specs (numbered 7)))
    = 7%nat /\
  ~ In (8, T "Onboarding")
      (UpdateSpecs.sections (UpdateSpecs.update_specs (numbered 7))).
Proof.
  split; [vm_compute; reflexivity|]. split; [vm_compute; reflexivity|].
  intros H. vm_compute in H. repeat destruct H as [H|H]; try discriminate H.
  exact H.
Qed.

(** C3, amended: for a document with the sections 1..7 (or fewer),
    [docs/update_specs.py] inserts nothing and writes the text back
    byte for byte: the sections 1 to 7 are unchanged and none is
    renumbered, but there is no section 8.  The new section is inserted
    only before an existing heading numbered 8. *)
Theorem C3_nothing_appended {U : Unicode} content n :
  UpdateSpecs.numbers content = upto n -> (n <= 7)%nat ->
  UpdateSpecs.update_specs content = content.
Proof.
  intros Hn Hle. apply (UpdateSpecsFacts.update_specs_below_8 content n Hn).
  lia.
Qed.

Lemma C3_witness : UpdateSpecs.update_specs (numbered 7) = numbered 7.
Proof.
  apply (C3_nothing_appended (numbered 7) 7%nat);
    [vm_compute; reflexivity|lia].
Defined.

(** ** C4: lines of a body that look like headings *)

(** C4 as stated fails.  The body of section 8 quotes the line
    [## 3. Example]: [docs/update_specs.py] takes it for a heading and
    writes [## 10. Example], so that the section that follows is numbered
    11.  In the body of section 18, [update_specs_employer.py] rewrites the
    same line into [## 4. Example]. *)
Lemma C4_counterexample :
  (In (T "## 3. Example") (split doc_example_8) /\
   ~ In (T "## 3. Example")
       (split (UpdateSpecs.update_specs doc_example_8)) /\
   In (T "## 10. Example")
      (split (UpdateSpecs.update_specs doc_example_8)) /\
   UpdateSpecs.sections (UpdateSpecs.update_specs doc_example_8) =
     [(8, T "Onboarding"); (9, T "Create Job Post");
      (10, T "Example"); (11, T "Edit Job Post")]) /\
  (In (T "## 3. Example") (split doc_example_18) /\
   exists out,
     Employer.update_specs_employer doc_example_18 = Some out /\
     ~ In (T "## 3. Example") (split out) /\
     In (T "## 4. Example") (split out)).
Proof.
  split; [split; [|split; [|split]]|split].
  - apply mem_true. vm_compute; reflexivity.
  - apply mem_false. vm_compute; reflexivity.
  - apply mem_true. vm_compute; reflexivity.
  - vm_compute; reflexivity.
  - apply mem_true. vm_compute; reflexivity.
  - eexists. split; [vm_compute; reflexivity|]. split.
    + apply mem_false. vm_compute; reflexivity.
    + apply mem_true. vm_compute; reflexivity.
Qed.

(** C4, amended: a heading is told by the text of the line alone.  A line
    that does not match the heading pattern from its first character (a
    quoted or indented example, say) is neither counted nor rewritten,
    wherever it stands: it is copied, and what is written for the other
    lines is what would be written without it.  A line that does match
    is taken for a heading, inside a body too: from the insertion point
    on, [docs/update_specs.py] gives it the next number of its counter
    and [update_specs_employer.py] its number plus one. *)
Theorem C4_headings_by_text_alone {U : Unicode} :
  (forall l1 line l2,
     UpdateSpecs.section_pattern line = None ->
     exists o2,
       UpdateSpecs.new_lines (UpdateSpecs.loop (l1 ++ l2)) =
         UpdateSpecs.new_lines (UpdateSpecs.loop l1) ++ o2 /\
       UpdateSpecs.new_lines (UpdateSpecs.loop (l1 ++ line :: l2)) =
         UpdateSpecs.new_lines (UpdateSpecs.loop l1) ++ line :: o2) /\
  (forall l1 line l2 out,
     Forall no_nl (l1 ++ line :: l2) ->
     Employer.header_pattern line = None ->
     Employer.update_specs_employer (join (l1 ++ line :: l2)) = Some out ->
     exists o1 o2,
       out = join (o1 ++ line :: o2) /\
       Employer.update_specs_employer (join (l1 ++ l2)) =
         Some (join (o1 ++ o2))) /\
  (forall l1 h l2 line l3 g title,
     Forall (fun l => UpdateSpecs.is_section_8 l = false) l1 ->
     UpdateSpecs.is_section_8 h = true ->
     UpdateSpecs.section_pattern line = Some (g, title) ->
     let k :=
       N.of_nat (List.length (filter_map UpdateSpecs.section_of (h :: l2))) in
     UpdateSpecs.new_lines
       (UpdateSpecs.loop (l1 ++ (h :: l2) ++ line :: l3)) =
       l1 ++ UpdateSpecs.block ++ UpdateSpecs.renumber 9 (h :: l2) ++
       UpdateSpecs.heading (9 + k) title ::
       UpdateSpecs.renumber (9 + k + 1) l3) /\
  (forall l1 h l2 line l3 g rest,
     Forall no_nl (l1 ++ (h :: l2) ++ line :: l3) ->
     Forall (fun l => Employer.starts_18 l = false) l1 ->
     Employer.starts_18 h = true ->
     Employer.header_pattern line = Some (g, rest) ->
     Employer.update_specs_employer
       (join (l1 ++ (h :: l2) ++ line :: l3)) =
       Some (join ((l1 ++ Employer.new_section_lines) ++
                   map Employer.bump_line (h :: l2) ++
                   (Employer.replace_header g ++ rest) ::
                   map Employer.bump_line l3))).
Proof.
  split; [|split; [|split]].
  - apply UpdateSpecsFacts.loop_other_line.
  - apply EmployerFacts.employer_other_line.
  - intros l1 h l2 line l3 g title Hall Hh Hline k.
    change (l1 ++ (h :: l2) ++ line :: l3)
      with (l1 ++ h :: (l2 ++ line :: l3)).
    rewrite loop_insert by assumption.
    change (h :: l2 ++ line :: l3) with ((h :: l2) ++ line :: l3).
    rewrite renumber_app. fold k.
    do 3 f_equal.
    cbn [UpdateSpecs.renumber]. unfold UpdateSpecs.section_of at 1.
    rewrite Hline. reflexivity.
  - intros l1 h l2 line l3 g rest Hnl Hall Hh Hline.
    change (l1 ++ (h :: l2) ++ line :: l3)
      with (l1 ++ h :: (l2 ++ line :: l3)) in *.
    rewrite EmployerFacts.employer_found_lines by assumption.
    do 3 f_equal.
    change (h :: l2 ++ line :: l3) with ((h :: l2) ++ line :: l3).
    rewrite map_app. f_equal. cbn [map]. f_equal.
    unfold Employer.bump_line. now rewrite Hline.
Qed.

Lemma C4_witness :
  (exists o2,
     UpdateSpecs.new_lines
       (UpdateSpecs.loop ([T "## 8. Create Job Post"] ++ [T "## 9. Edit"])) =
       UpdateSpecs.new_lines (UpdateSpecs.loop [T "## 8. Create Job Post"])
         ++ o2 /\
     UpdateSpecs.new_lines
       (UpdateSpecs.loop
          ([T "## 8. Create Job Post"] ++
           T "> ## 3. Example" :: [T "## 9. Edit"])) =
       UpdateSpecs.new_lines (UpdateSpecs.loop [T "## 8. Create Job Post"])
         ++ T "> ## 3. Example" :: o2) /\
  (exists out,
     Employer.update_specs_employer
       (join ([T "## 18. Create Job Post"] ++
              T "  ## 3. Example" :: [T "## 19. Edit"])) = Some out /\
     exists o1 o2,
       out = join (o1 ++ T "  ## 3. Example" :: o2) /\
       Employer.update_specs_employer
         (join ([T "## 18. Create Job Post"] ++ [T "## 19. Edit"])) =
         Some (join (o1 ++ o2))) /\
  (UpdateSpecs.new_lines
     (UpdateSpecs.loop
        ([T "## 7. Login"] ++ (T "## 8. Create" :: [T "A heading:"]) ++
         T "## 3. Example" :: [T "## 9. Edit"])) =
     [T "## 7. Login"] ++ UpdateSpecs.block ++
     UpdateSpecs.renumber 9 (T "## 8. Create" :: [T "A heading:"]) ++
     UpdateSpecs.heading (9 + 1) (T "Example") ::
     UpdateSpecs.renumber (9 + 1 + 1) [T "## 9. Edit"]) /\
  (Employer.update_specs_employer
     (join ([T "## 17. Login"] ++ (T "## 18. Create" :: [T "A heading:"]) ++
            T "## 3. Example" :: [T "## 19. Edit"])) =
     Some (join (([T "## 17. Login"] ++ Employer.new_section_lines) ++
                 map Employer.bump_line (T "## 18. Create" :: [T "A heading:"])
                 ++ (Employer.replace_header (T "3") ++ T " Example") ::
                 map Employer.bump_line [T "## 19. Edit"]))).
Proof.
  split; [|split; [|split]].
  - apply (proj1 C4_headings_by_text_alone). vm_compute; reflexivity.
  - eexists. split; [vm_compute; reflexivity|].
    apply (proj1 (proj2 C4_headings_by_text_alone)).
    + apply no_nl_forallb. vm_compute; reflexivity.
    + vm_compute; reflexivity.
    + vm_compute; reflexivity.
  - apply (proj1 (proj2 (proj2 C4_headings_by_text_alone))
             [T "## 7. Login"] (T "## 8. Create") [T "A heading:"]
             (T "## 3. Example") [T "## 9. Edit"] (T "3") (T "Example")).
    + apply Forall_false_forallb. vm_compute; reflexivity.
    + vm_compute; reflexivity.
    + vm_compute; reflexivity.
  - apply (proj2 (proj2 (proj2 C4_headings_by_text_alone))).
    + apply no_nl_forallb. vm_compute; reflexivity.
    + apply Forall_false_forallb. vm_compute; reflexivity.
    + vm_compute; reflexivity.
    + vm_compute; reflexivity.
Defined.

(** ** C5: what is before the insertion point *)

(** C5: cut the document before any of its lines, at or before the
    insertion point (no heading numbered 8, resp. no line beginning with
    [## 18.], before the cut): the text before the cut, with every section
    it holds, heading lines and bodies, is the beginning of the result,
    byte for byte. *)
Theorem C5_prefix_unchanged {U : Unicode} :
  (forall content l1 h l2,
     split content = l1 ++ h :: l2 ->
     Forall (fun l => UpdateSpecs.is_section_8 l = false) l1 ->
     content = unlines l1 ++ join (h :: l2) /\
     exists rest, UpdateSpecs.update_specs content = unlines l1 ++ rest) /\
  (forall content out l1 h l2,
     split content = l1 ++ h :: l2 ->
     Forall (fun l => Employer.starts_18 l = false) l1 ->
     Employer.update_specs_employer content = Some out ->
     content = unlines l1 ++ join (h :: l2) /\
     exists rest, out = unlines l1 ++ rest).
Proof.
  split.
  - intros content l1 h l2 Hs Hall. split; [now apply split_cut|].
    now apply (UpdateSpecsFacts.update_specs_prefix content l1 h l2).
  - intros content out l1 h l2 Hs Hall Hout. split; [now apply split_cut|].
    now apply (EmployerFacts.employer_prefix content out l1 h l2).
Qed.

Lemma C5_witness :
  (numbered 9 =
     unlines (firstn 21 (split (numbered 9))) ++
     join (nth 21 (split (numbered 9)) [] :: skipn 22 (split (numbered 9))) /\
   exists rest,
     UpdateSpecs.update_specs (numbered 9) =
       unlines (firstn 21 (split (numbered 9))) ++ rest) /\
  (exists out,
     Employer.update_specs_employer (numbered 19) = Some out /\
     exists rest, out = unlines (firstn 51 (split (numbered 19))) ++ rest).
Proof.
  split.
  - apply (proj1 C5_prefix_unchanged (numbered 9)
             (firstn 21 (split (numbered 9)))
             (nth 21 (split (numbered 9)) [])
             (skipn 22 (split (numbered 9)))).
    + vm_compute; reflexivity.
    + apply Forall_false_forallb. vm_compute; reflexivity.
  - eexists. split; [vm_compute; reflexivity|].
    apply (proj2 C5_prefix_unchanged (numbered 19) _
             (firstn 51 (split (numbered 19)))
             (nth 51 (split (numbered 19)) [])
             (skipn 52 (split (numbered 19)))).
    + vm_compute; reflexivity.
    + apply Forall_false_forallb. vm_compute; reflexivity.
    + vm_compute; reflexivity.
Defined.

(** ** C6: the new section in the result *)

(** C6: when the document has a heading numbered 8, resp. a line
    beginning with [## 18.], the insertion is done: the result is the text
    before the first such line, then the new section as the script holds
    it, title and body byte for byte, then the rest.  The only heading of
    the new section has the number of the target, 8 resp. 18, and in a
    document numbered 1..N the text before it holds exactly the sections
    numbered below the target. *)
Theorem C6_new_section_verbatim {U : Unicode} :
  (forall content l1 h l2,
     split content = l1 ++ h :: l2 ->
     Forall (fun l => UpdateSpecs.is_section_8 l = false) l1 ->
     UpdateSpecs.is_section_8 h = true ->
     (exists rest,
        UpdateSpecs.update_specs content =
          unlines l1 ++ UpdateSpecs.new_use_case ++ rest) /\
     UpdateSpecs.sections UpdateSpecs.new_use_case = [(8, T "Onboarding")] /\
     (forall n,
        UpdateSpecs.numbers content = upto n ->
        map fst (filter_map UpdateSpecs.section_of l1) = upto 7)) /\
  (forall content l1 h l2,
     split content = l1 ++ h :: l2 ->
     Forall (fun l => Employer.starts_18 l = false) l1 ->
     Employer.starts_18 h = true ->
     (exists rest,
        Employer.update_specs_employer content =
          Some (unlines l1 ++ Employer.new_section ++ rest)) /\
     Employer.numbers Employer.new_section = [18] /\
     (forall n,
        Employer.numbers content = upto n ->
        filter_map Employer.number_of l1 = upto 17)).
Proof.
  split.
  - intros content l1 h l2 Hs Hall Hh. split; [|split].
    + eexists.
      apply (UpdateSpecsFacts.update_specs_insert_text content l1 h l2);
        assumption.
    + vm_compute. reflexivity.
    + intros n Hn.
      now apply (UpdateSpecsFacts.update_specs_prefix_numbers content n l1 h l2).
  - intros content l1 h l2 Hs Hall Hh. split; [|split].
    + eexists. now apply (EmployerFacts.employer_found content l1 h l2).
    + vm_compute. reflexivity.
    + intros n Hn.
      now apply (EmployerFacts.employer_prefix_numbers content n l1 h l2).
Qed.

Lemma C6_witness :
  ((exists rest,
      UpdateSpecs.update_specs (numbered 9) =
        unlines (firstn 21 (split (numbered 9))) ++
        UpdateSpecs.new_use_case ++ rest) /\
   UpdateSpecs.sections UpdateSpecs.new_use_case = [(8, T "Onboarding")] /\
   map fst (filter_map UpdateSpecs.section_of
              (firstn 21 (split (numbered 9)))) = upto 7) /\
  ((exists rest,
      Employer.update_specs_employer (numbered 19) =
        Some (unlines (firstn 51 (split (numbered 19))) ++
              Employer.new_section ++ rest)) /\
   Employer.numbers Employer.new_section = [18] /\
   filter_map Employer.number_of (firstn 51 (split (numbered 19)))
     = upto 17).
Proof.
  split.
  - destruct (proj1 C6_new_section_verbatim (numbered 9)
                (firstn 21 (split (numbered 9)))
                (nth 21 (split (numbered 9)) [])
                (skipn 22 (split (numbered 9)))) as (H1 & H2 & H3).
    + vm_compute; reflexivity.
    + apply Forall_false_forallb. vm_compute; reflexivity.
    + vm_compute; reflexivity.
    + split; [exact H1|]. split; [exact H2|].
      apply (H3 9%nat). vm_compute; reflexivity.
  - destruct (proj2 C6_new_section_verbatim (numbered 19)
                (firstn 51 (split (numbered 19)))
                (nth 51 (split (numbered 19)) [])
                (skipn 52 (split (numbered 19)))) as (H1 & H2 & H3).
    + vm_compute; reflexivity.
    + apply Forall_false_forallb. vm_compute; reflexivity.
    + vm_compute; reflexivity.
    + split; [exact H1|]. split; [exact H2|].
      apply (H3 19%nat). vm_compute; reflexivity.
Defined.

(** ** C7: nothing is written when the script fails *)

(** C7: when [update_specs_employer.py] leaves with a status other than 0
    the file is as it was; [docs/update_specs.py] has no failure. *)
Theorem C7_failure_writes_nothing {U : Unicode} :
  (forall w,
     Script.status (Employer.main w) <> 0%nat ->
     Script.file (fst (Employer.main w)) = Script.file w) /\
  (forall w, Script.status (UpdateSpecs.main w) = 0%nat).
Proof.
  split.
  - intros w Hst.
    destruct (Employer.update_specs_employer (Script.file w)) as [out|] eqn:E.
    + rewrite (EmployerFacts.main_found w out E) in Hst. now elim Hst.
    + now rewrite (EmployerFacts.main_not_found w E).
  - intros w. now rewrite UpdateSpecsFacts.main_run.
Qed.

Lemma C7_witness :
  Script.file (fst (Employer.main (Script.mkWorld doc_1_2_4 []))) = doc_1_2_4.
Proof.
  apply (proj1 C7_failure_writes_nothing (Script.mkWorld doc_1_2_4 [])).
  vm_compute. discriminate.
Defined.

(** ** C8: a document without a heading *)

(** C8 as stated fails for [update_specs_employer.py]: a text without a
    heading has no result, the script leaves with status 1. *)
Lemma C8_counterexample :
  Forall (fun l => Employer.header_pattern l = None) (split doc_plain) /\
  Employer.update_specs_employer doc_plain = None /\
  Script.status (Employer.main (Script.mkWorld doc_plain [])) = 1%nat.
Proof.
  split; [|split; vm_compute; reflexivity].
  repeat constructor.
Qed.

(** C8, amended: for every document without a heading line,
    [docs/update_specs.py] writes back the text it has read, byte for
    byte, and leaves with status 0; [update_specs_employer.py] prints
    "Could not find Section 18.", leaves with status 1 and writes nothing.
    Either way the file is as it was. *)
Theorem C8_no_heading {U : Unicode} :
  (forall w,
     Forall (fun l => UpdateSpecs.section_pattern l = None)
       (split (Script.file w)) ->
     UpdateSpecs.update_specs (Script.file w) = Script.file w /\
     Script.status (UpdateSpecs.main w) = 0%nat /\
     Script.file (fst (UpdateSpecs.main w)) = Script.file w) /\
  (forall w,
     Forall (fun l => Employer.header_pattern l = None)
       (split (Script.file w)) ->
     Employer.update_specs_employer (Script.file w) = None /\
     Script.status (Employer.main w) = 1%nat /\
     Script.file (fst (Employer.main w)) = Script.file w /\
     Script.stdout (fst (Employer.main w)) =
       (Script.stdout w ++ ["Could not find Section 18."%string])%list).
Proof.
  split.
  - intros w H.
    assert (E : UpdateSpecs.update_specs (Script.file w) = Script.file w).
    { apply UpdateSpecsFacts.update_specs_no8.
      eapply Forall_impl; [|exact H]. intros l Hl.
      unfold UpdateSpecs.is_section_8, UpdateSpecs.section_of.
      now rewrite Hl. }
    rewrite UpdateSpecsFacts.main_run. cbn [fst Script.file Script.status snd].
    now rewrite E.
  - intros w H.
    assert (E : Employer.update_specs_employer (Script.file w) = None).
    { apply EmployerFacts.employer_not_found.
      eapply Forall_impl; [|exact H].
      apply EmployerFacts.header_pattern_None_starts_18. }
    rewrite (EmployerFacts.main_not_found w E). repeat split. exact E.
Qed.

Lemma C8_witness :
  (UpdateSpecs.update_specs doc_plain = doc_plain /\
   Script.status (UpdateSpecs.main (Script.mkWorld doc_plain [])) = 0%nat /\
   Script.file (fst (UpdateSpecs.main (Script.mkWorld doc_plain [])))
     = doc_plain) /\
  (Employer.update_specs_employer doc_plain = None /\
   Script.status (Employer.main (Script.mkWorld doc_plain [])) = 1%nat /\
   Script.file (fst (Employer.main (Script.mkWorld doc_plain [])))
     = doc_plain /\
   Script.stdout (fst (Employer.main (Script.mkWorld doc_plain []))) =
     ([] ++ ["Could not find Section 18."%string])%list).
Proof.
  split.
  - apply (proj1 C8_no_heading (Script.mkWorld doc_plain [])).
    repeat constructor.
  - apply (proj2 C8_no_heading (Script.mkWorld doc_plain [])).
    repeat constructor.
Defined.

(** ** C9: [re.sub] adds one to every heading number of the tail *)

(** C9: when the document has a line that begins with [## 18.],
    [update_specs_employer.py] has a result: the lines before the first
    such line, the new section, and every line from that one on passed
    through [bump_line].  [bump_line] turns a line [## <digits>.<rest>],
    whatever the number, into [## <number + 1>.<rest>], so that the number
    read back is the old one plus one, and keeps any other line. *)
Theorem C9_tail_headings_plus_one {U : Unicode} :
  (forall content l1 h l2,
     split content = l1 ++ h :: l2 ->
     Forall (fun l => Employer.starts_18 l = false) l1 ->
     Employer.starts_18 h = true ->
     Employer.update_specs_employer content =
       Some (unlines l1 ++ Employer.new_section ++
             join (map Employer.bump_line (h :: l2)))) /\
  (forall ds rest,
     ds <> [] -> Forall (fun c => is_digit c = true) ds ->
     Employer.bump_line (T "## " ++ ds ++ T "." ++ rest) =
       T "## " ++ str (int ds + 1) ++ T "." ++ rest) /\
  (forall line,
     Employer.number_of (Employer.bump_line line) =
       option_map (fun n => n + 1) (Employer.number_of line)) /\
  (forall line,
     Employer.header_pattern line = None -> Employer.bump_line line = line).
Proof.
  split; [|split; [|split]].
  - apply EmployerFacts.employer_found.
  - intros ds rest Hne Hd. unfold Employer.bump_line.
    rewrite EmployerFacts.header_pattern_make by assumption.
    unfold Employer.replace_header. now rewrite <- !app_assoc.
  - apply EmployerFacts.number_of_bump_line.
  - intros line H. unfold Employer.bump_line. now rewrite H.
Qed.

Lemma C9_witness :
  Employer.update_specs_employer doc_example_18 =
    Some (unlines [] ++ Employer.new_section ++
          join (map Employer.bump_line
                  (hd [] (split doc_example_18) ::
                   tl (split doc_example_18)))) /\
  Employer.bump_line (T "## " ++ T "007" ++ T "." ++ T " Search") =
    T "## " ++ str (int (T "007") + 1) ++ T "." ++ T " Search" /\
  Employer.bump_line (T "> ## 3. Example") = T "> ## 3. Example".
Proof.
  split; [|split].
  - apply (proj1 C9_tail_headings_plus_one doc_example_18 []).
    + vm_compute; reflexivity.
    + constructor.
    + vm_compute; reflexivity.
  - apply (proj1 (proj2 C9_tail_headings_plus_one)).
    + discriminate.
    + repeat constructor.
  - apply (proj2 (proj2 (proj2 C9_tail_headings_plus_one))).
    vm_compute; reflexivity.
Defined.

(** ** C10: the counter numbers the headings of the tail *)

(** C10 as stated fails: the heading lines after the first heading
    numbered 8 do not receive 9, 10, ...  In [doc_example_8] the first
    heading numbered 8 is the first line; it is written as the 66th line of
    the result with the number 9, and the two heading lines after it
    receive 10 and 11. *)
Lemma C10_counterexample :
  UpdateSpecs.is_section_8 (hd [] (split doc_example_8)) = true /\
  nth 65 (split (UpdateSpecs.update_specs doc_example_8)) [] =
    T "## 9. Create Job Post" /\
  map fst
    (filter_map UpdateSpecs.section_of
       (skipn 66 (split (UpdateSpecs.update_specs doc_example_8)))) =
    [10; 11] /\
  map fst
    (filter_map UpdateSpecs.section_of
       (skipn 66 (split (UpdateSpecs.update_specs doc_example_8)))) <>
    map N.of_nat (seq 9 2).
Proof.
  split; [vm_compute; reflexivity|]. split; [vm_compute; reflexivity|].
  split; [vm_compute; reflexivity|].
  intros H. vm_compute in H. discriminate H.
Qed.

(** C10, amended: when [docs/update_specs.py] meets a heading numbered 8,
    what it writes from there on is the new section and the lines from
    that heading on, renumbered as [renumber 9] says: the heading lines,
    the first section 8 included, receive 9, 10, 11, ... in their order
    (so the first heading line after it receives 10), whatever number each
    had, with their titles kept; no numbering is reported as wrong. *)
Theorem C10_tail_headings_counted {U : Unicode} content l1 h l2 :
  split content = l1 ++ h :: l2 ->
  Forall (fun l => UpdateSpecs.is_section_8 l = false) l1 ->
  UpdateSpecs.is_section_8 h = true ->
  let tail := UpdateSpecs.renumber 9 (h :: l2) in
  let old := filter_map UpdateSpecs.section_of (h :: l2) in
  UpdateSpecs.update_specs content =
    join (l1 ++ UpdateSpecs.block ++ tail) /\
  map fst (filter_map UpdateSpecs.section_of tail) =
    map N.of_nat (seq 9 (List.length old)) /\
  map snd (filter_map UpdateSpecs.section_of tail) = map snd old.
Proof.
  intros Hs Hall Hh tail old. split; [|split].
  - now apply UpdateSpecsFacts.update_specs_insert.
  - unfold tail. rewrite UpdateSpecsFacts.renumber_sections.
    change 9 with (N.of_nat 9).
    rewrite UpdateSpecsFacts.number_from_numbers. now rewrite length_map.
  - unfold tail. rewrite UpdateSpecsFacts.renumber_sections.
    apply UpdateSpecsFacts.number_from_titles.
Qed.

Lemma C10_witness :
  let tail := UpdateSpecs.renumber 9 (split doc_example_8) in
  let old := filter_map UpdateSpecs.section_of (split doc_example_8) in
  UpdateSpecs.update_specs doc_example_8 =
    join ([] ++ UpdateSpecs.block ++ tail) /\
  map fst (filter_map UpdateSpecs.section_of tail) =
    map N.of_nat (seq 9 (List.length old)) /\
  map snd (filter_map UpdateSpecs.section_of tail) = map snd old.
Proof.
  apply (C10_tail_headings_counted doc_example_8 []
           (hd [] (split doc_example_8)) (tl (split doc_example_8))).
  - vm_compute; reflexivity.
  - constructor.
  - vm_compute; reflexivity.
Defined.

(** * Further properties of the two scripts *)

(** ** Lines and numerals *)

(** X1: [split] and [join] are inverse of each other: joining the lines of
    a text gives the text back, and splitting what was joined from lines
    (at least one, none with a newline) gives the lines back. *)
Theorem split_join_round_trip :
  (forall s, join (split s) = s) /\
  (forall items,
     items <> [] -> Forall no_nl items -> split (join items) = items).
Proof.
  split.
  - apply join_split.
  - apply split_join_lines.
Qed.

Lemma split_join_round_trip_witness :
  split (join [T "## 1. A"; []; T "text"]) = [T "## 1. A"; []; T "text"].
Proof.
  apply (proj2 split_join_round_trip).
  - discriminate.
  - apply no_nl_forallb. vm_compute; reflexivity.
Defined.

Section NumeralFacts.
Context {U : Unicode}.

Lemma int_leading_zeros k ds : int (repeat (chr "0") k ++ ds) = int ds.
Proof. induction k as [|k IH]; [reflexivity|exact IH]. Qed.

Lemma repeat_zero_digits k :
  Forall (fun c => is_digit c = true) (repeat (chr "0") k).
Proof. induction k; simpl; constructor; (reflexivity || assumption). Qed.

Lemma section_pattern_digits ds title :
  ds <> [] -> Forall (fun c => is_digit c = true) ds ->
  title <> [] -> no_nl title ->
  UpdateSpecs.section_pattern (T "## " ++ ds ++ T ". " ++ title)
    = Some (ds, title).
Proof.
  intros Hds Hd Hne Hnl. unfold UpdateSpecs.section_pattern.
  rewrite strip_prefix_app.
  rewrite span_exact by (assumption || reflexivity).
  destruct ds as [|d ds]; [congruence|].
  rewrite strip_prefix_app.
  replace title with (title ++ []) at 1 by apply app_nil_r.
  rewrite span_exact; [| |exact I].
  - simpl. destruct title; [congruence|reflexivity].
  - rewrite Forall_forall. intros c Hc.
    destruct (is_newline c) eqn:Ec; [|reflexivity].
    apply is_newline_true in Ec; subst c. contradiction.
Qed.

(** The number read in one digit is the value of the digit. *)
Lemma int_one_digit c v :
  decimal c = Some v -> v < 10 -> int [c] = v.
Proof.
  intros Hc Hv. unfold int. simpl. rewrite Hc.
  assert (Hcases : v = 0 \/ v = 1 \/ v = 2 \/ v = 3 \/ v = 4 \/ v = 5 \/
                   v = 6 \/ v = 7 \/ v = 8 \/ v = 9) by lia.
  repeat (destruct Hcases as [->|Hcases]; [reflexivity|]).
  subst v. reflexivity.
Qed.

End NumeralFacts.

(** X2: a heading written by [docs/update_specs.py] is read back by its
    own pattern with the number and the title that were written. *)
Theorem heading_read_back {U : Unicode} n title :
  title <> [] -> no_nl title ->
  UpdateSpecs.section_pattern (UpdateSpecs.heading n title)
    = Some (str n, title) /\
  UpdateSpecs.section_of (UpdateSpecs.heading n title) = Some (n, title).
Proof.
  intros Hne Hnl. split.
  - now apply UpdateSpecsFacts.section_pattern_heading.
  - now apply UpdateSpecsFacts.section_of_heading.
Qed.

Lemma heading_read_back_witness :
  UpdateSpecs.section_pattern (UpdateSpecs.heading 12 (T "Sign Up / Login"))
    = Some (str 12, T "Sign Up / Login") /\
  UpdateSpecs.section_of (UpdateSpecs.heading 12 (T "Sign Up / Login"))
    = Some (12, T "Sign Up / Login").
Proof.
  apply heading_read_back.
  - discriminate.
  - unfold no_nl. vm_compute. intuition discriminate.
Defined.

(** X3: what the substitution of [update_specs_employer.py] writes for a
    match, whose group 1 is a string of digits, is matched again by its
    pattern, with the number increased by one and the rest of the line
    kept. *)
Theorem replaced_header_read_back {U : Unicode} g1 rest :
  g1 <> [] -> Forall (fun c => is_digit c = true) g1 ->
  Employer.header_pattern (T "## " ++ g1 ++ T "." ++ rest) = Some (g1, rest) /\
  Employer.header_pattern (Employer.replace_header g1 ++ rest)
    = Some (str (int g1 + 1), rest) /\
  Employer.number_of (Employer.replace_header g1 ++ rest)
    = Some (int g1 + 1).
Proof.
  intros Hne Hd. split; [|split].
  - now apply EmployerFacts.header_pattern_make.
  - apply EmployerFacts.header_pattern_replace.
  - unfold Employer.number_of.
    rewrite EmployerFacts.header_pattern_replace. now rewrite int_str.
Qed.

Lemma replaced_header_read_back_witness :
  Employer.header_pattern (T "## " ++ T "099" ++ T "." ++ T " Search")
    = Some (T "099", T " Search") /\
  Employer.header_pattern (Employer.replace_header (T "099") ++ T " Search")
    = Some (str (int (T "099") + 1), T " Search") /\
  Employer.number_of (Employer.replace_header (T "099") ++ T " Search")
    = Some (int (T "099") + 1).
Proof.
  apply replaced_header_read_back.
  - discriminate.
  - repeat constructor.
Defined.

(** X4: [docs/update_specs.py] reads a heading number by its value:
    zeros before the digit 8 make no difference, the heading is section
    8. *)
Theorem section_8_with_leading_zeros {U : Unicode} k title :
  title <> [] -> no_nl title ->
  UpdateSpecs.is_section_8
    (T "## " ++ (repeat (chr "0") k ++ T "8") ++ T ". " ++ title) = true.
Proof.
  intros Hne Hnl. unfold UpdateSpecs.is_section_8, UpdateSpecs.section_of.
  rewrite section_pattern_digits; try assumption.
  - now rewrite int_leading_zeros.
  - destruct k; discriminate.
  - apply Forall_app. split; [apply repeat_zero_digits|].
    repeat constructor.
Qed.

Lemma section_8_with_leading_zeros_witness :
  UpdateSpecs.is_section_8
    (T "## " ++ (repeat (chr "0") 2 ++ T "8") ++ T ". " ++ T "Onboarding")
    = true.
Proof.
  apply section_8_with_leading_zeros.
  - discriminate.
  - unfold no_nl. vm_compute. intuition discriminate.
Defined.

(** X5: [update_specs_employer.py] searches for the characters [## 18.]:
    a heading whose number 18 is written with zeros before it has the
    number 18 for the substitution and yet is not what the search
    finds. *)
Theorem section_18_with_leading_zeros {U : Unicode} k rest :
  Employer.number_of (T "## " ++ (repeat (chr "0") (S k) ++ T "18") ++
                      T "." ++ rest) = Some 18 /\
  Employer.starts_18 (T "## " ++ (repeat (chr "0") (S k) ++ T "18") ++
                      T "." ++ rest) = false.
Proof.
  split.
  - unfold Employer.number_of.
    rewrite EmployerFacts.header_pattern_make.
    + now rewrite int_leading_zeros.
    + discriminate.
    + apply Forall_app. split; [apply repeat_zero_digits|].
      repeat constructor.
  - reflexivity.
Qed.

(** X6: [re.sub] with the flag [MULTILINE] works line by line, on any
    text: each line goes through [bump_line], and the number of lines
    does not change. *)
Theorem re_sub_line_by_line {U : Unicode} s :
  Employer.sub s = join (map Employer.bump_line (split s)) /\
  List.length (split (Employer.sub s)) = List.length (split s).
Proof.
  assert (E : Employer.sub s = join (map Employer.bump_line (split s))).
  { rewrite <- (join_split s) at 1.
    apply EmployerFacts.sub_join, split_no_nl. }
  split; [exact E|].
  rewrite E. rewrite split_join_lines.
  - apply length_map.
  - pose proof (split_not_nil s). destruct (split s); [congruence|discriminate].
  - pose proof (split_no_nl s) as Hnl. rewrite Forall_forall in *.
    intros l Hin. apply in_map_iff in Hin. destruct Hin as (l' & <- & Hin).
    apply EmployerFacts.bump_line_no_nl. auto.
Qed.

(** ** The search of update_specs_employer.py *)

(** X7: when [re.search] finds something, it is the first line that
    begins with [## 18.]: [insert_index] is the offset of the first
    character of that line, [before] is the lines in front of it, each with
    its newline, and [after] is the text from that line on. *)
Theorem search_first_marker_line content i :
  Employer.search content = Some i ->
  exists l1 h l2,
    split content = l1 ++ h :: l2 /\
    Forall (fun l => Employer.starts_18 l = false) l1 /\
    Employer.starts_18 h = true /\
    i = List.length (unlines l1) /\
    firstn i content = unlines l1 /\
    skipn i content = join (h :: l2).
Proof.
  intros Hi.
  destruct (EmployerFacts.first_starts_18 (split content))
    as [Hno|(l1 & h & l2 & Hs & Hall & Hh)].
  - rewrite <- (join_split content) in Hi.
    rewrite EmployerFacts.search_not_found in Hi;
      [discriminate|apply split_no_nl|assumption|apply split_not_nil].
  - exists l1, h, l2.
    pose proof (split_no_nl content) as Hnl. rewrite Hs in Hnl.
    apply Forall_app in Hnl. destruct Hnl as [Hnl1 _].
    pose proof (split_cut content l1 h l2 Hs) as Hc.
    assert (E : i = List.length (unlines l1)).
    { rewrite Hc, EmployerFacts.search_found in Hi by assumption.
      now apply Some_inj in Hi. }
    repeat (split; [assumption|]). subst i. rewrite Hc at 1 2.
    rewrite firstn_app, firstn_all, Nat.sub_diag, firstn_O, app_nil_r.
    rewrite skipn_app, skipn_all, Nat.sub_diag, skipn_O, app_nil_l.
    split; reflexivity.
Qed.

Lemma search_first_marker_line_witness :
  exists l1 h l2,
    split doc_1_2_4_18 = l1 ++ h :: l2 /\
    Forall (fun l => Employer.starts_18 l = false) l1 /\
    Employer.starts_18 h = true /\
    40%nat = List.length (unlines l1) /\
    firstn 40 doc_1_2_4_18 = unlines l1 /\
    skipn 40 doc_1_2_4_18 = join (h :: l2).
Proof.
  apply (search_first_marker_line doc_1_2_4_18 40).
  vm_compute; reflexivity.
Defined.

(** ** [strip] *)

Section StripFacts.
Context {U : Unicode}.

Lemma lstrip_cut s :
  exists a,
    s = a ++ UpdateSpecs.lstrip s /\
    Forall (fun c => UpdateSpecs.is_space c = true) a /\
    match UpdateSpecs.lstrip s with
    | [] => True
    | c :: _ => UpdateSpecs.is_space c = false
    end.
Proof.
  induction s as [|c s IH].
  - exists []. repeat split. constructor.
  - simpl. destruct (UpdateSpecs.is_space c) eqn:E.
    + destruct IH as (a & Hs & Ha & Hhd). exists (c :: a).
      split; [simpl; now f_equal|]. split; [now constructor|exact Hhd].
    + exists []. split; [reflexivity|]. split; [constructor|exact E].
Qed.

End StripFacts.

(** X8: [strip] takes away white space at both ends and nothing else: the
    text is white space, then what [strip] returns, then white space, and
    what [strip] returns neither begins nor ends with white space. *)
Theorem strip_cut {U : Unicode} s :
  exists a b,
    s = a ++ UpdateSpecs.strip s ++ b /\
    Forall (fun c => UpdateSpecs.is_space c = true) a /\
    Forall (fun c => UpdateSpecs.is_space c = true) b /\
    match UpdateSpecs.strip s with
    | [] => True
    | c :: _ => UpdateSpecs.is_space c = false
    end /\
    match List.rev (UpdateSpecs.strip s) with
    | [] => True
    | c :: _ => UpdateSpecs.is_space c = false
    end.
Proof.
  destruct (lstrip_cut s) as (a & Hs & Ha & Hhd).
  destruct (lstrip_cut (List.rev (UpdateSpecs.lstrip s)))
    as (b & Hr & Hb & Hlast).
  assert (Hm : UpdateSpecs.lstrip s = UpdateSpecs.strip s ++ List.rev b).
  { unfold UpdateSpecs.strip. rewrite <- rev_app_distr, <- Hr.
    symmetry. apply rev_involutive. }
  exists a, (List.rev b). split; [|split; [|split; [|split]]].
  - now rewrite <- Hm.
  - exact Ha.
  - now apply Forall_rev.
  - rewrite Hm in Hhd. destruct (UpdateSpecs.strip s); [exact I|exact Hhd].
  - unfold UpdateSpecs.strip. rewrite rev_involutive. exact Hlast.
Qed.

(** ** What docs/update_specs.py writes, line by line *)

Section LineFacts.
Context {U : Unicode}.

Lemma no_section_8_existsb lines :
  Forall (fun l => UpdateSpecs.is_section_8 l = false) lines <->
  existsb UpdateSpecs.is_section_8 lines = false.
Proof.
  induction lines as [|l lines IH]; simpl.
  - split; [reflexivity|constructor].
  - rewrite orb_false_iff, <- IH. split.
    + intros H. apply Forall_cons_iff in H. exact H.
    + intros [H1 H2]. now constructor.
Qed.

Lemma section_8_existsb l1 h l2 :
  UpdateSpecs.is_section_8 h = true ->
  existsb UpdateSpecs.is_section_8 (l1 ++ h :: l2) = true.
Proof.
  intros Hh. rewrite existsb_app. simpl. rewrite Hh.
  now rewrite orb_true_r.
Qed.

Lemma renumber_length ls : forall c,
  List.length (UpdateSpecs.renumber c ls) = List.length ls.
Proof.
  induction ls as [|l ls IH]; intros c; simpl; [reflexivity|].
  destruct (UpdateSpecs.section_of l) as [[num title]|]; simpl; now rewrite IH.
Qed.

(** The lines of the text written when there is a section 8. *)
Lemma update_specs_insert_lines content l1 h l2 :
  split content = l1 ++ h :: l2 ->
  Forall (fun l => UpdateSpecs.is_section_8 l = false) l1 ->
  UpdateSpecs.is_section_8 h = true ->
  split (UpdateSpecs.update_specs content) =
    l1 ++ flat_map split UpdateSpecs.block ++
    UpdateSpecs.renumber 9 (h :: l2).
Proof.
  intros Hs Hall Hh.
  rewrite (UpdateSpecsFacts.update_specs_insert content l1 h l2)
    by assumption.
  pose proof (split_no_nl content) as Hnl. rewrite Hs in Hnl.
  apply Forall_app in Hnl. destruct Hnl as [Hnl1 Hnl2].
  rewrite split_join by (destruct l1; discriminate).
  rewrite !flat_map_app.
  rewrite (flat_map_split_lines l1) by assumption.
  rewrite (flat_map_split_lines (UpdateSpecs.renumber 9 (h :: l2)))
    by (apply UpdateSpecsFacts.renumber_no_nl; assumption).
  reflexivity.
Qed.

Lemma block_line_count : List.length (flat_map split UpdateSpecs.block) = 65%nat.
Proof. vm_compute. reflexivity. Qed.

End LineFacts.

(** X9: [docs/update_specs.py] adds 65 lines when the document has a
    heading numbered 8, and none otherwise: no line of the document is
    dropped or joined with another. *)
Theorem update_specs_line_count {U : Unicode} content :
  List.length (split (UpdateSpecs.update_specs content)) =
    (List.length (split content) +
     if existsb UpdateSpecs.is_section_8 (split content) then 65 else 0)%nat.
Proof.
  destruct (UpdateSpecsFacts.first_section_8 (split content))
    as [Hno|(l1 & h & l2 & Hs & Hall & Hh)].
  - rewrite UpdateSpecsFacts.update_specs_no8 by assumption.
    apply no_section_8_existsb in Hno. rewrite Hno. lia.
  - rewrite (update_specs_insert_lines content l1 h l2) by assumption.
    rewrite Hs, section_8_existsb by assumption.
    rewrite !length_app, block_line_count, renumber_length. lia.
Qed.

(** X10: the text written by [docs/update_specs.py] is the text read
    exactly when the document has no heading numbered 8. *)
Theorem update_specs_unchanged_iff {U : Unicode} content :
  UpdateSpecs.update_specs content = content <->
  Forall (fun l => UpdateSpecs.is_section_8 l = false) (split content).
Proof.
  split.
  - intros E.
    pose proof (update_specs_line_count content) as Hlen.
    rewrite E in Hlen. apply no_section_8_existsb.
    destruct (existsb UpdateSpecs.is_section_8 (split content));
      [lia|reflexivity].
  - apply UpdateSpecsFacts.update_specs_no8.
Qed.

Section CountFacts.
Context {U : Unicode}.

Lemma count_occ_no_nl ls (x : text) :
  Forall no_nl ls -> In newline x ->
  count_occ (list_eq_dec N.eq_dec) ls x = 0%nat.
Proof.
  intros Hnl Hx. apply count_occ_not_In. intros Hin.
  rewrite Forall_forall in Hnl. now apply (Hnl x Hin).
Qed.

Lemma strip_new_use_case_newline :
  In newline (UpdateSpecs.strip UpdateSpecs.new_use_case).
Proof.
  assert (E : existsb is_newline (UpdateSpecs.strip UpdateSpecs.new_use_case)
              = true) by (vm_compute; reflexivity).
  apply existsb_exists in E. destruct E as (c & Hin & Hc).
  apply is_newline_true in Hc. now subst c.
Qed.

Lemma block_count :
  count_occ (list_eq_dec N.eq_dec) UpdateSpecs.block
    (UpdateSpecs.strip UpdateSpecs.new_use_case) = 1%nat.
Proof.
  unfold UpdateSpecs.block.
  rewrite count_occ_cons_eq by reflexivity.
  rewrite (count_occ_no_nl [[]; []]); [reflexivity| |].
  - repeat constructor; intros [].
  - apply strip_new_use_case_newline.
Qed.

End CountFacts.

(** X11: the loop of [docs/update_specs.py] inserts the new section once,
    before the first heading numbered 8, however many headings have that
    number, and not at all when none has. *)
Theorem block_inserted_once {U : Unicode} lines :
  Forall no_nl lines ->
  count_occ (list_eq_dec N.eq_dec)
    (UpdateSpecs.new_lines (UpdateSpecs.loop lines))
    (UpdateSpecs.strip UpdateSpecs.new_use_case) =
  if existsb UpdateSpecs.is_section_8 lines then 1%nat else 0%nat.
Proof.
  intros Hnl.
  destruct (UpdateSpecsFacts.first_section_8 lines)
    as [Hno|(l1 & h & l2 & -> & Hall & Hh)].
  - rewrite loop_copy by assumption.
    apply no_section_8_existsb in Hno. rewrite Hno.
    apply count_occ_no_nl; [assumption|apply strip_new_use_case_newline].
  - rewrite loop_insert, section_8_existsb by assumption.
    apply Forall_app in Hnl. destruct Hnl as [Hnl1 Hnl2].
    rewrite !count_occ_app.
    match goal with
    | |- (?a + (?b + ?c))%nat = _ =>
        assert (Ha : a = 0%nat);
        [|assert (Hb : b = 1%nat);
          [|assert (Hc : c = 0%nat); [|rewrite Ha, Hb, Hc; reflexivity]]]
    end.
    + apply count_occ_no_nl;
        [assumption|apply strip_new_use_case_newline].
    + apply block_count.
    + apply count_occ_no_nl; [|apply strip_new_use_case_newline].
      now apply UpdateSpecsFacts.renumber_no_nl.
Qed.

Lemma block_inserted_once_witness :
  count_occ (list_eq_dec N.eq_dec)
    (UpdateSpecs.new_lines
       (UpdateSpecs.loop [T "## 8. Create"; T "## 8. Edit"; T "## 08. Close"]))
    (UpdateSpecs.strip UpdateSpecs.new_use_case) =
  if existsb UpdateSpecs.is_section_8
       [T "## 8. Create"; T "## 8. Edit"; T "## 08. Close"]
  then 1%nat else 0%nat.
Proof.
  apply block_inserted_once.
  apply no_nl_forallb. vm_compute; reflexivity.
Defined.

(** ** Running a script again *)

Section AgainFacts.
Context {U : Unicode}.

Lemma block_first_line :
  flat_map split UpdateSpecs.block =
    T "## 8. Onboarding" :: tl (flat_map split UpdateSpecs.block).
Proof. vm_compute. reflexivity. Qed.

End AgainFacts.

(** X12: [docs/update_specs.py] run on what it has written inserts the
    new section again: the section 8 it finds is the one it inserted, so
    the result has two sections "Onboarding", numbered 8 and 9, and the
    sections that followed are numbered from 10. *)
Theorem update_specs_twice {U : Unicode} content l1 h l2 :
  split content = l1 ++ h :: l2 ->
  Forall (fun l => UpdateSpecs.is_section_8 l = false) l1 ->
  UpdateSpecs.is_section_8 h = true ->
  UpdateSpecs.sections
    (UpdateSpecs.update_specs (UpdateSpecs.update_specs content)) =
  filter_map UpdateSpecs.section_of l1 ++
  (8, T "Onboarding") :: (9, T "Onboarding") ::
  UpdateSpecs.number_from 10
    (map snd (filter_map UpdateSpecs.section_of (h :: l2))).
Proof.
  intros Hs Hall Hh.
  pose proof (update_specs_insert_lines content l1 h l2 Hs Hall Hh) as Hout.
  rewrite block_first_line in Hout.
  rewrite (UpdateSpecsFacts.update_specs_insert_sections
             (UpdateSpecs.update_specs content) l1 (T "## 8. Onboarding")
             (tl (flat_map split UpdateSpecs.block) ++
              UpdateSpecs.renumber 9 (h :: l2)));
    [|exact Hout|exact Hall|reflexivity].
  f_equal. f_equal.
  change (T "## 8. Onboarding" ::
          tl (flat_map split UpdateSpecs.block) ++
          UpdateSpecs.renumber 9 (h :: l2))
    with ((T "## 8. Onboarding" :: tl (flat_map split UpdateSpecs.block)) ++
          UpdateSpecs.renumber 9 (h :: l2)).
  rewrite <- block_first_line.
  rewrite filter_map_app, UpdateSpecsFacts.block_sections.
  rewrite UpdateSpecsFacts.renumber_sections.
  rewrite map_app, UpdateSpecsFacts.number_from_titles.
  reflexivity.
Qed.

Lemma update_specs_twice_witness :
  UpdateSpecs.sections
    (UpdateSpecs.update_specs (UpdateSpecs.update_specs doc_example_8)) =
  filter_map UpdateSpecs.section_of [] ++
  (8, T "Onboarding") :: (9, T "Onboarding") ::
  UpdateSpecs.number_from 10
    (map snd (filter_map UpdateSpecs.section_of
                (hd [] (split doc_example_8) :: tl (split doc_example_8)))).
Proof.
  apply (update_specs_twice doc_example_8 []).
  - vm_compute; reflexivity.
  - constructor.
  - vm_compute; reflexivity.
Defined.

Section EmployerAgainFacts.
Context {U : Unicode}.

Lemma new_section_marker :
  In (T "## 18. Employer Onboarding") (split (removelast Employer.new_section)).
Proof. apply mem_true. vm_compute. reflexivity. Qed.

(** What [update_specs_employer.py] writes always has a line that begins
    with [## 18.]: the heading of the new section. *)
Lemma employer_result_has_marker content out :
  Employer.update_specs_employer content = Some out ->
  Exists (fun l => Employer.starts_18 l = true) (split out).
Proof.
  intros Hout. apply EmployerFacts.employer_inv in Hout.
  destruct Hout as (l1 & h & l2 & Hs & _ & _ & ->).
  pose proof (split_no_nl content) as Hnl. rewrite Hs in Hnl.
  apply Forall_app in Hnl. destruct Hnl as [Hnl1 _].
  rewrite split_unlines by assumption.
  rewrite EmployerFacts.new_section_ends, split_app_line.
  apply Exists_exists. exists (T "## 18. Employer Onboarding").
  split; [|reflexivity].
  apply in_or_app. right. apply in_or_app. left. apply new_section_marker.
Qed.

End EmployerAgainFacts.

(** X13: [update_specs_employer.py] never stops on what it has written:
    run again, it finds the [## 18.] of the section it inserted and
    inserts the section once more; of a document numbered 1..N it makes
    1..N+2. *)
Theorem employer_twice {U : Unicode} content out :
  Employer.update_specs_employer content = Some out ->
  exists out2,
    Employer.update_specs_employer out = Some out2 /\
    forall n,
      Employer.numbers content = upto n ->
      Employer.numbers out2 = upto (n + 2).
Proof.
  intros Hout.
  destruct (employer_Some_of_marker out
              (employer_result_has_marker content out Hout)) as [out2 Hout2].
  exists out2. split; [exact Hout2|].
  intros n Hn.
  replace (n + 2)%nat with ((n + 1) + 1)%nat by lia.
  apply (EmployerFacts.employer_numbers out out2 (n + 1)); [|exact Hout2].
  now apply (EmployerFacts.employer_numbers content out n).
Qed.

Lemma employer_twice_witness :
  exists out,
    Employer.update_specs_employer (numbered 19) = Some out /\
    exists out2,
      Employer.update_specs_employer out = Some out2 /\
      Employer.numbers out2 = upto (19 + 2).
Proof.
  eexists. split; [vm_compute; reflexivity|].
  destruct (employer_twice (numbered 19) _ eq_refl) as (out2 & H2 & Hn).
  exists out2. split; [exact H2|].
  apply Hn. vm_compute; reflexivity.
Defined.

(** X14: [update_specs_employer.py] adds 55 lines to the document when it
    does not stop: no line of the document is dropped or joined with
    another, and the text written is never the text read. *)
Theorem employer_line_count {U : Unicode} content out :
  Employer.update_specs_employer content = Some out ->
  List.length (split out) = (List.length (split content) + 55)%nat /\
  out <> content.
Proof.
  intros Hout.
  assert (Hlen : List.length (split out) =
                 (List.length (split content) + 55)%nat).
  { apply EmployerFacts.employer_inv in Hout.
    destruct Hout as (l1 & h & l2 & Hs & _ & _ & ->).
    pose proof (split_no_nl content) as Hnl. rewrite Hs in Hnl.
    apply Forall_app in Hnl. destruct Hnl as [Hnl1 Hnl2].
    rewrite split_unlines by assumption.
    rewrite EmployerFacts.new_section_ends, split_app_line.
    rewrite split_join_lines.
    - rewrite Hs, !length_app, length_map.
      replace (List.length (split (removelast Employer.new_section)))
        with 55%nat by (vm_compute; reflexivity).
      lia.
    - discriminate.
    - rewrite Forall_forall in *. intros l Hin. apply in_map_iff in Hin.
      destruct Hin as (l' & <- & Hin).
      apply EmployerFacts.bump_line_no_nl. auto. }
  split; [exact Hlen|].
  intros ->. lia.
Qed.

Lemma employer_line_count_witness :
  exists out,
    Employer.update_specs_employer doc_1_2_4_18 = Some out /\
    List.length (split out) = (List.length (split doc_1_2_4_18) + 55)%nat /\
    out <> doc_1_2_4_18.
Proof.
  eexists. split; [vm_compute; reflexivity|].
  apply employer_line_count. vm_compute; reflexivity.
Defined.

(** ** One script after the other *)

Section ComposeFacts.
Context {U : Unicode}.

Lemma number_from_In ts : forall c k,
  (k < List.length ts)%nat ->
  In (c + N.of_nat k, nth k ts []) (UpdateSpecs.number_from c ts).
Proof.
  induction ts as [|t ts IH]; intros c k Hk; simpl in Hk; [lia|].
  destruct k as [|k]; simpl.
  - left. f_equal. lia.
  - right. replace (c + N.pos (Pos.of_succ_nat k)) with ((c + 1) + N.of_nat k)
      by lia.
    apply IH. lia.
Qed.

Lemma filter_map_In {A B} (f : A -> option B) l b :
  In b (filter_map f l) -> exists a, In a l /\ f a = Some b.
Proof.
  unfold filter_map. intros H. apply in_flat_map in H.
  destruct H as (a & Ha & Hb). exists a. split; [assumption|].
  destruct (f a) as [b'|]; [|contradiction].
  destruct Hb as [->|[]]. reflexivity.
Qed.

Lemma renumber_In ls : forall c x,
  In x (UpdateSpecs.renumber c ls) ->
  UpdateSpecs.section_of x = None \/
  exists c' title,
    x = UpdateSpecs.heading c' title /\ title <> [] /\ no_nl title.
Proof.
  induction ls as [|l ls IH]; intros c x Hin; simpl in Hin; [contradiction|].
  destruct (UpdateSpecs.section_of l) as [[num title]|] eqn:E.
  - destruct Hin as [<-|Hin]; [|now apply (IH _ _ Hin)].
    right. exists c, title. split; [reflexivity|].
    eapply UpdateSpecsFacts.section_of_title; eauto.
  - destruct Hin as [<-|Hin]; [now left|now apply (IH _ _ Hin)].
Qed.

Lemma heading_18_marker title :
  Employer.starts_18 (UpdateSpecs.heading 18 title) = true.
Proof. reflexivity. Qed.

End ComposeFacts.

(** X15: the two scripts in the order of their use.  After
    [docs/update_specs.py] has run on a document with the sections 1..N,
    N >= 17, [update_specs_employer.py] finds its section 18 in what was
    written, however the heading numbers were spelt in the document: it
    does not stop. *)
Theorem employer_after_update_specs {U : Unicode} content n :
  UpdateSpecs.numbers content = upto n -> (17 <= n)%nat ->
  exists out,
    Employer.update_specs_employer (UpdateSpecs.update_specs content)
      = Some out.
Proof.
  intros Hn Hle. apply employer_Some_of_marker.
  destruct (UpdateSpecsFacts.first_section_8 (split content))
    as [Hno|(l1 & h & l2 & Hs & Hall & Hh)].
  - exfalso. apply (UpdateSpecsFacts.no_section_8_numbers _ Hno).
    fold (UpdateSpecs.sections content). fold (UpdateSpecs.numbers content).
    rewrite Hn. apply (UpdateSpecsFacts.upto_In n 8). lia.
  - rewrite (update_specs_insert_lines content l1 h l2) by assumption.
    set (titles := map snd (filter_map UpdateSpecs.section_of (h :: l2))).
    assert (Hlen : (9 < List.length titles)%nat).
    { destruct (UpdateSpecsFacts.is_section_8_inv h Hh) as [title Ht].
      unfold UpdateSpecs.numbers, UpdateSpecs.sections in Hn.
      rewrite Hs, filter_map_app, map_app in Hn. simpl in Hn.
      rewrite Ht in Hn. simpl in Hn. symmetry in Hn.
      destruct (upto_split n _ 8 _ Hn) as (_ & _ & Hb).
      rewrite length_map in Hb.
      unfold titles. simpl. rewrite Ht. simpl. rewrite length_map. lia. }
    pose proof (number_from_In titles 9 9 Hlen) as Hin.
    unfold titles in Hin at 2.
    rewrite <- UpdateSpecsFacts.renumber_sections in Hin.
    apply filter_map_In in Hin. destruct Hin as (x & Hx & Hsec).
    apply Exists_exists. exists x. split.
    + apply in_or_app. right. apply in_or_app. now right.
    + destruct (renumber_In _ _ _ Hx) as [Hnone|(c' & t & -> & Hne & Hnl)].
      * rewrite Hnone in Hsec. discriminate.
      * rewrite UpdateSpecsFacts.section_of_heading in Hsec by assumption.
        injection Hsec as -> _. apply heading_18_marker.
Qed.

Lemma employer_after_update_specs_witness :
  exists out,
    Employer.update_specs_employer (UpdateSpecs.update_specs (numbered 17))
      = Some out.
Proof.
  apply (employer_after_update_specs (numbered 17) 17%nat).
  - vm_compute; reflexivity.
  - lia.
Defined.

(** ** The numbers that are written *)

Lemma to_uint_normal n : unorm (N.to_uint n) = N.to_uint n.
Proof.
  rewrite <- (DecimalN.Unsigned.to_of (N.to_uint n)).
  now rewrite DecimalN.Unsigned.of_to.
Qed.

(** X16: a number is written without zeros in front: the numeral of a
    number other than 0 is made of digits and does not begin with [0].
    So the headings renumbered by the two scripts (9 and more in
    [docs/update_specs.py], a number plus one in
    [update_specs_employer.py]) lose the zeros their numbers may have
    begun with. *)
Theorem str_no_leading_zero {U : Unicode} n :
  n <> 0 ->
  exists c cs,
    str n = c :: cs /\ c <> chr "0" /\
    Forall (fun c => is_digit c = true) (c :: cs).
Proof.
  intros Hn. pose proof (str_digits n) as Hd.
  unfold str in *. pose proof (to_uint_normal n) as Hnorm.
  assert (Hnz : N.to_uint n <> Decimal.zero).
  { intros E. apply Hn. rewrite <- (DecimalN.Unsigned.of_to n), E.
    reflexivity. }
  assert (Hhead : forall d', N.to_uint n <> D0 d').
  { intros d' E. unfold unorm in Hnorm.
    pose proof (DecimalFacts.nzhead_nonzero (N.to_uint n) d') as Hh.
    destruct (nzhead (N.to_uint n)) eqn:Ez;
      try (apply Hh; rewrite Hnorm; exact E).
    apply Hnz. now symmetry. }
  destruct (N.to_uint n) as [|d|d|d|d|d|d|d|d|d|d] eqn:E;
    simpl in *;
    try (eexists; eexists; split; [reflexivity|];
         split; [discriminate|exact Hd]).
  - exfalso. apply Hnz.
    pose proof (DecimalFacts.unorm_nonnil Nil) as H. now elim H.
  - exfalso. now apply (Hhead d).
Qed.

Lemma str_no_leading_zero_witness :
  exists c cs,
    str (int (T "0099") + 1) = c :: cs /\ c <> chr "0" /\
    Forall (fun c => is_digit c = true) (c :: cs).
Proof.
  apply str_no_leading_zero. vm_compute. discriminate.
Defined.

(** ** Digits of other scripts *)

(** X17: [docs/update_specs.py] reads the digits of every script: a
    heading whose number is the one character [c], a decimal digit of
    value 8 in the tables of the interpreter, is a section 8 and sets off
    the insertion. *)
Theorem section_8_in_another_script {U : Unicode} c title :
  decimal c = Some 8 -> title <> [] -> no_nl title ->
  UpdateSpecs.is_section_8 (T "## " ++ [c] ++ T ". " ++ title) = true /\
  UpdateSpecs.new_lines
    (UpdateSpecs.loop [T "## " ++ [c] ++ T ". " ++ title]) =
    UpdateSpecs.block ++ [UpdateSpecs.heading 9 title].
Proof.
  intros Hc Hne Hnl.
  assert (H8 : UpdateSpecs.is_section_8 (T "## " ++ [c] ++ T ". " ++ title)
               = true).
  { unfold UpdateSpecs.is_section_8, UpdateSpecs.section_of.
    rewrite section_pattern_digits; try assumption.
    - rewrite (int_one_digit c 8) by (assumption || reflexivity). reflexivity.
    - discriminate.
    - constructor; [|constructor]. unfold is_digit. now rewrite Hc. }
  split; [exact H8|].
  set (h := T "## " ++ [c] ++ T ". " ++ title) in *.
  pose proof (loop_insert [] h [] (Forall_nil _) H8) as Hl.
  change ([] ++ [h]) with [h] in Hl. rewrite Hl.
  destruct (UpdateSpecsFacts.is_section_8_inv h H8) as [title' Ht].
  assert (Et : title' = title).
  { unfold h, UpdateSpecs.section_of in Ht.
    rewrite section_pattern_digits in Ht; try assumption.
    - now inversion Ht.
    - discriminate.
    - constructor; [|constructor]. unfold is_digit. now rewrite Hc. }
  subst title'. cbn [UpdateSpecs.renumber]. rewrite Ht. reflexivity.
Qed.

Lemma section_8_in_another_script_witness :
  UpdateSpecs.is_section_8 (T "## " ++ [1640] ++ T ". " ++ T "Example")
    = true /\
  UpdateSpecs.new_lines
    (UpdateSpecs.loop [T "## " ++ [1640] ++ T ". " ++ T "Example"]) =
    UpdateSpecs.block ++ [UpdateSpecs.heading 9 (T "Example")].
Proof.
  apply section_8_in_another_script.
  - vm_compute; reflexivity.
  - discriminate.
  - unfold no_nl. vm_compute. intuition discriminate.
Defined.

(** X18: the substitution of [update_specs_employer.py] reads the digits
    of every script and writes ASCII ones: a line that begins with [##],
    one character [c] that is a decimal digit of value [v], and a dot, is
    rewritten with the numeral of [v + 1]. *)
Theorem bump_line_in_another_script {U : Unicode} c v rest :
  decimal c = Some v -> v < 10 ->
  Employer.bump_line (T "## " ++ [c] ++ T "." ++ rest) =
    T "## " ++ str (v + 1) ++ T "." ++ rest.
Proof.
  intros Hc Hv. unfold Employer.bump_line.
  rewrite EmployerFacts.header_pattern_make.
  - unfold Employer.replace_header.
    rewrite (int_one_digit c v) by assumption.
    now rewrite <- !app_assoc.
  - discriminate.
  - constructor; [|constructor]. unfold is_digit. now rewrite Hc.
Qed.

Lemma bump_line_in_another_script_witness :
  Employer.bump_line (T "## " ++ [1635] ++ T "." ++ T " Example") =
    T "## " ++ str (3 + 1) ++ T "." ++ T " Example".
Proof.
  apply bump_line_in_another_script.
  - vm_compute; reflexivity.
  - reflexivity.
Defined.
